(** * Photo-edit backend: a shallow embedding of [backend/server.py]

    The handlers of the FastAPI application are modelled as computations
    in a state-and-exception monad over an explicit world (document store
    collections, upload directory, log of outbound network calls).  The
    Python library primitives the handlers call ([base64], Pillow's
    [Image.new] / [ImageDraw.rectangle], the Motor cursor) are modelled
    next to them. *)

From Stdlib Require Import ZArith List String Ascii Bool Lia.
From Stdlib Require Import Strings.Byte Sorting.Sorted Sorting.Permutation.
From Stdlib Require QArith.QArith_base QArith.Qabs.
From stdpp Require Import base option list gmap strings pretty.

Import ListNotations.
Local Open Scope Z_scope.

(** ** Bounded exhaustive checks

    Several bit-level facts about 6-bit and 8-bit quantities are settled by
    evaluating a boolean test on every value of the range. *)

Definition Zrange (n : nat) : list Z := map Z.of_nat (seq 0 n).

(** ** Python's [base64] module

    [base64.b64encode] and [base64.b64decode] (default [validate=False]) as
    CPython's [binascii] implements them: the encoder emits four alphabet
    characters per three input bytes and pads the tail with [=]; the decoder
    is the character-at-a-time loop of [binascii.a2b_base64], which skips
    characters outside the alphabet, stops at a complete pad sequence and
    rejects a dangling quantum. *)

Module Base64.

Definition Z_of_byte (b : byte) : Z := Z.of_N (Byte.to_N b).

(** Storing into an [unsigned char] keeps the low eight bits. *)
Definition byte_of_Z (z : Z) : byte :=
  match Byte.of_N (Z.to_N (Z.land z 255)) with
  | Some b => b
  | None => x00
  end.

Definition BASE64_PAD : ascii := "="%char.

Definition table_b2a_base64 : string :=
  "ABCDEFGHIJKLMNOPQRSTUVWXYZabcdefghijklmnopqrstuvwxyz0123456789+/"%string.

Definition b2a (sextet : Z) : ascii :=
  match String.get (Z.to_nat sextet) table_b2a_base64 with
  | Some c => c
  | None => BASE64_PAD
  end.

(** The inverse table; every character outside the alphabet maps to a
    value that fails the [this_ch >= 64] test of the decoder. *)
Definition table_a2b_base64 (c : ascii) : Z :=
  let n := Z.of_N (N_of_ascii c) in
  if (65 <=? n) && (n <=? 90) then n - 65
  else if (97 <=? n) && (n <=? 122) then n - 71
  else if (48 <=? n) && (n <=? 57) then n + 4
  else if n =? 43 then 62
  else if n =? 47 then 63
  else 255.

Fixpoint b2a_base64 (data : list byte) : list ascii :=
  match data with
  | [] => []
  | [a] =>
      let a := Z_of_byte a in
      [ b2a (Z.shiftr a 2);
        b2a (Z.shiftl (Z.land a 3) 4);
        BASE64_PAD; BASE64_PAD ]
  | [a; b] =>
      let a := Z_of_byte a in
      let b := Z_of_byte b in
      [ b2a (Z.shiftr a 2);
        b2a (Z.lor (Z.shiftl (Z.land a 3) 4) (Z.shiftr b 4));
        b2a (Z.shiftl (Z.land b 15) 2);
        BASE64_PAD ]
  | a :: b :: c :: rest =>
      let a := Z_of_byte a in
      let b := Z_of_byte b in
      let c := Z_of_byte c in
      b2a (Z.shiftr a 2)
      :: b2a (Z.lor (Z.shiftl (Z.land a 3) 4) (Z.shiftr b 4))
      :: b2a (Z.lor (Z.shiftl (Z.land b 15) 2) (Z.shiftr c 6))
      :: b2a (Z.land c 63)
      :: b2a_base64 rest
  end.

(** [base64.b64encode(data).decode('utf-8')] *)
Definition b64encode (data : list byte) : string :=
  string_of_list_ascii (b2a_base64 data).

Inductive DecodeError :=
| NonAscii          (* ValueError: string argument should contain only ASCII characters *)
| InvalidLength (data_characters : nat)
                    (* binascii.Error: number of data characters (n) cannot be 1 more than a multiple of 4 *)
| IncorrectPadding. (* binascii.Error: Incorrect padding *)

(** [str(e)] of the decoder's exception; the count in the length error is
    printed in decimal between parentheses, as [binascii] formats it. *)
Definition str_of_DecodeError (e : DecodeError) : string :=
  match e with
  | NonAscii => "string argument should contain only ASCII characters"
  | InvalidLength n =>
      "Invalid base64-encoded string: number of data characters ("
      +:+ pretty n +:+ ") cannot be 1 more than a multiple of 4"
  | IncorrectPadding => "Incorrect padding"
  end%string.

(** The loop of [a2b_base64] in non-strict mode.  [quad_pos] is the
    position inside the current group of four, [leftchar] the bits carried
    over, [pads] the number of pad characters seen since the last data
    character, [out] the bytes written so far.  A lone data character
    at the end is reported with the count [binascii] computes from the
    bytes written: four per three bytes, plus the dangling one. *)
Fixpoint a2b_loop (s : list ascii) (quad_pos : nat) (leftchar : Z)
         (pads : nat) (out : list byte) : DecodeError + list byte :=
  match s with
  | [] =>
      match quad_pos with
      | O => inr out
      | S O => inl (InvalidLength (List.length out / 3 * 4 + 1))
      | _ => inl IncorrectPadding
      end
  | ch :: s' =>
      if Ascii.eqb ch BASE64_PAD then
        if (2 <=? quad_pos)%nat && (4 <=? quad_pos + S pads)%nat
        then inr out
        else a2b_loop s' quad_pos leftchar
                      (if (2 <=? quad_pos)%nat then S pads else pads) out
      else
        let this_ch := table_a2b_base64 ch in
        if 64 <=? this_ch then a2b_loop s' quad_pos leftchar pads out
        else
          match quad_pos with
          | 0%nat => a2b_loop s' 1%nat this_ch 0%nat out
          | 1%nat =>
              a2b_loop s' 2%nat (Z.land this_ch 15) 0%nat
                (out ++ [byte_of_Z (Z.lor (Z.shiftl leftchar 2) (Z.shiftr this_ch 4))])
          | 2%nat =>
              a2b_loop s' 3%nat (Z.land this_ch 3) 0%nat
                (out ++ [byte_of_Z (Z.lor (Z.shiftl leftchar 4) (Z.shiftr this_ch 2))])
          | _ =>
              a2b_loop s' 0%nat 0 0%nat
                (out ++ [byte_of_Z (Z.lor (Z.shiftl leftchar 6) this_ch)])
          end
  end.

Definition a2b_base64 (s : list ascii) : DecodeError + list byte :=
  a2b_loop s 0%nat 0 0%nat [].

Definition is_ascii (c : ascii) : bool := (N_of_ascii c <? 128)%N.

(** [base64.b64decode(s)] on a [str] argument. *)
Definition b64decode (s : string) : DecodeError + list byte :=
  let cs := list_ascii_of_string s in
  if forallb is_ascii cs then a2b_base64 cs else inl NonAscii.

End Base64.

(** ** Exceptions

    [HTTPException] is what a handler raises on purpose and FastAPI turns
    into the error response; [Error] stands for every other Python
    exception, carrying [str(e)]. *)

Inductive exn :=
| HTTPException (status_code : Z) (detail : string)
| Error (msg : string).

(** [str(e)]; Starlette prints an [HTTPException] as ["status: detail"]. *)
Definition str_exn (e : exn) : string :=
  match e with
  | HTTPException status_code detail => pretty status_code +:+ ": " +:+ detail
  | Error msg => msg
  end.

Definition result (A : Type) : Type := exn + A.

(** ** Parsed JSON ([json.loads])

    A Python [int] is an integer of any size; a [float] is a binary64
    value, kept as the rational it denotes, or one of [NaN], [Infinity]
    and [-Infinity], which [json.loads] accepts; a [str] is its sequence
    of code points; an object is its members in order, each key once
    (of a repeated key [json.loads] keeps the last value). *)

Abbreviation Q := QArith_base.Q.

#[warnings="-register-all"]
Inductive json :=
| JNull
| JBool (b : bool)
| JInt (z : Z)
| JReal (x : Q)
| JNonFinite
| JStr (code_points : list N)
| JList (items : list json)
| JObj (members : list (list N * json)).

(** [len(v)] *)
Definition py_len (v : json) : result nat :=
  match v with
  | JList items => inr (List.length items)
  | JStr code_points => inr (List.length code_points)
  | JObj members => inr (List.length members)
  | JNull => inl (Error "object of type 'NoneType' has no len()")
  | JBool _ => inl (Error "object of type 'bool' has no len()")
  | JInt _ => inl (Error "object of type 'int' has no len()")
  | JReal _ | JNonFinite => inl (Error "object of type 'float' has no len()")
  end.

(** [for coords in v]: the items a [for] loop visits. *)
Definition py_iter (v : json) : result (list json) :=
  match v with
  | JList items => inr items
  | JStr code_points => inr (map (fun c => JStr [c]) code_points)
  | JObj members => inr (map (fun kv => JStr (fst kv)) members)
  | JNull => inl (Error "'NoneType' object is not iterable")
  | JBool _ => inl (Error "'bool' object is not iterable")
  | JInt _ => inl (Error "'int' object is not iterable")
  | JReal _ | JNonFinite => inl (Error "'float' object is not iterable")
  end.

(** ** Pillow: mode-[L] images and [ImageDraw.rectangle] *)

Module PIL.

(** A single-channel 8-bit image: [rows] holds [height] rows of [width]
    pixel values. *)
Record Image := mkImage {
  width : nat;
  height : nat;
  rows : list (list Z)
}.

Definition size (im : Image) : nat * nat := (width im, height im).

(** [Image.new('L', size, color)] *)
Definition new_L (sz : nat * nat) (color : Z) : Image :=
  mkImage (fst sz) (snd sz) (repeat (repeat color (fst sz)) (snd sz)).

(** [im.getpixel((x, y))] for coordinates inside the image. *)
Definition getpixel (im : Image) (x y : nat) : Z :=
  nth x (nth y (rows im) []) 0.

Fixpoint mapi_from {A B : Type} (f : nat -> A -> B) (i : nat) (l : list A) : list B :=
  match l with
  | [] => []
  | a :: l' => f i a :: mapi_from f (S i) l'
  end.

Definition in_span (lo hi : Z) (i : nat) : bool :=
  (Z.min lo hi <=? Z.of_nat i) && (Z.of_nat i <=? Z.max lo hi).

(** A set of pixels, by column and row. *)
Definition region : Type := nat -> nat -> bool.

(** Writing [ink] into the pixels of the image that lie in a region; the
    fill primitive clips to the image and writes nothing outside. *)
Definition paint (im : Image) (pixels : region) (ink : Z) : Image :=
  mkImage (width im) (height im)
    (mapi_from
       (fun y row =>
          mapi_from (fun x p => if pixels x y then ink else p) 0%nat row)
       0%nat (rows im)).

(** The filled rectangle of [ImagingDrawRectangle]: the columns between
    the two x coordinates and the rows between the two y coordinates,
    both ends included. *)
Definition box (x0 y0 x1 y1 : Z) : region :=
  fun x y => in_span x0 x1 x && in_span y0 y1 y.

(** What the path flattening takes as a number: an [int], a [bool]
    (which is an [int] in Python) or a [float]. *)
Definition is_number (v : json) : bool :=
  match v with
  | JInt _ | JBool _ | JReal _ | JNonFinite => true
  | _ => false
  end.

(** An [int] that does not fit a C [long]: converting it raises. *)
Definition overflows_long (v : json) : bool :=
  match v with
  | JInt z => (z <? - 2 ^ 63) || (2 ^ 63 <=? z)
  | _ => false
  end.

Definition EXACT_BOUND : Z := 2 ^ 24.

(** The value of a coordinate that the flattening and the narrowing to a
    C [int] both keep as it is: a finite number of magnitude at most
    [2^24], which a single-precision float holds exactly and which is far
    inside the range of [int]. *)
Definition exact_coordinate (v : json) : option Q :=
  let within (x : Q) :=
    if QArith_base.Qle_bool (Qabs.Qabs x) (QArith_base.inject_Z EXACT_BOUND)
    then Some x else None in
  match v with
  | JInt z => within (QArith_base.inject_Z z)
  | JBool true => Some (QArith_base.inject_Z 1)
  | JBool false => Some (QArith_base.inject_Z 0)
  | JReal x => within x
  | _ => None
  end.

(** The C cast [(int)x]: the integer part, towards zero. *)
Definition int_of (x : Q) : Z :=
  Z.quot (QArith_base.Qnum x) (Z.pos (QArith_base.Qden x)).

(** [a < b] on coordinates *)
Definition less (a b : Q) : bool := negb (QArith_base.Qle_bool b a).

(** The pixels [ImageDraw.Draw(im).rectangle(xy, fill=...)] sets, for a
    value [xy] that came out of [json.loads] and has four or more items,
    which is all the endpoint ever passes.

    The flattening walks the items: one that is neither a number nor
    something it can read as a point raises, with a text that differs
    between Pillow releases ([error_text]); so does an [int] outside the
    C [long] range, and so does every item of a [str], which is a
    sequence of one-character strings.  A [dict] is no sequence.  An odd number of values and a number of values
    other than four are refused in turn.  Four numbers that are exact
    (see [exact_coordinate]) give the box between them; [ordered_only]
    is the behaviour of recent releases, which raise [ValueError] when
    [x1 < x0] or [y1 < y0], where older ones swap the ends.  For any
    other four numbers the conversions to single precision and to C
    [int] decide what is drawn ([wide]): that is left to the platform,
    and is either an exception or some set of pixels. *)
Definition outline (ordered_only : bool) (wide : json -> result region)
           (error_text : json -> string) (xy : json) : result region :=
  match xy with
  | JList items =>
      if negb (forallb is_number items) then inl (Error (error_text xy))
      else if existsb overflows_long items then inl (Error (error_text xy))
      else
        match items with
        | [c0; c1; c2; c3] =>
            match exact_coordinate c0, exact_coordinate c1,
                  exact_coordinate c2, exact_coordinate c3 with
            | Some x0, Some y0, Some x1, Some y1 =>
                if ordered_only && less x1 x0 then
                  inl (Error "x1 must be greater than or equal to x0")
                else if ordered_only && less y1 y0 then
                  inl (Error "y1 must be greater than or equal to y0")
                else inr (box (int_of x0) (int_of y0) (int_of x1) (int_of y1))
            | _, _, _, _ => wide xy
            end
        | _ =>
            if Nat.odd (List.length items)
            then inl (Error "wrong number of coordinates")
            else inl (Error "coordinate list must contain exactly 2 coordinates")
        end
  | JStr _ => inl (Error (error_text xy))
  | _ => inl (Error "argument must be sequence")
  end.

(** [ImageDraw.Draw(im).rectangle(xy, fill=ink)] *)
Definition rectangle (ordered_only : bool) (wide : json -> result region)
           (error_text : json -> string) (im : Image) (xy : json) (ink : Z)
  : result Image :=
  match outline ordered_only wide error_text xy with
  | inl e => inl e
  | inr pixels => inr (paint im pixels ink)
  end.

End PIL.

(** ** Documents of the three collections *)

Record AgeVerification := mkAgeVerification {
  verified : bool;
  av_timestamp : Z
}.

Record ImageRecord := mkImageRecord {
  ir_id : string;
  ir_filename : string;
  ir_original_name : string;
  ir_content_type : string;
  ir_size : nat;
  ir_base64_data : string;
  ir_timestamp : Z
}.

(** [{**edit_record.dict(), **response.dict()}] *)
Record EditRecord := mkEditRecord {
  er_id : string;
  er_operation_type : string;
  er_prompt : string;
  er_timestamp : Z;
  er_result_image_base64 : string;
  er_processing_time : Z
}.

(** The key the store gives every document: [insert_one] adds an
    [ObjectId] under [_id], and [find] returns it with the fields. *)
Record ObjectId := mkObjectId { oid : nat }.

Record EditDocument := mkEditDocument {
  _id : ObjectId;
  fields : EditRecord
}.

(** The documents of the edit collection in insertion order; the position
    of a record in the collection stands for the [ObjectId] it got. *)
Definition documents (records : list EditRecord) : list EditDocument :=
  imap (fun i record => mkEditDocument (mkObjectId i) record) records.

(** ** The provider client and its calls *)

Record Client := mkClient { api_token : option string }.

(** A value of the [input] dictionary handed to [replicate_client.run];
      decimal hyper-parameters are kept as mantissa and power of ten. *)
Inductive InputValue :=
| VFile (content : list byte)
| VStr (s : string)
| VInt (n : Z)
| VDec (mantissa : Z) (exp10 : Z).

Definition RunInput : Type := list (string * InputValue).

(** What [run] returns: one URL or a list of URLs. *)
Inductive Output :=
| OutUrl (url : string)
| OutList (urls : list string).

(** One outbound network call and whether it succeeded. *)
Inductive NetCall :=
| ProviderRun (model : string) (input : RunInput) (ok : bool)
| HttpGet (url : string) (ok : bool).

Definition call_ok (c : NetCall) : bool :=
  match c with
  | ProviderRun _ _ ok => ok
  | HttpGet _ ok => ok
  end.

(** ** The world the handlers act on *)

Record World := mkWorld {
  age_verifications : list AgeVerification;
  images : list ImageRecord;
  image_edits : list EditRecord;
  files : gmap string (list byte);
  net : list NetCall;
  tick : nat
}.

(** Everything the handlers take from outside the process.  Results that
    vary from call to call are indexed by the world's [tick], which every
    effectful primitive advances. *)
Record Externals := mkExternals {
  (** [replicate.Client(api_token=...)] at import time *)
  Client_new : option string -> result Client;
  (** [replicate_client.run(model, input=...)] *)
  provider_run : nat -> Client -> string -> RunInput -> result Output;
  (** [httpx] GET followed by [raise_for_status] *)
  http_get : nat -> string -> result (list byte);
  (** a store operation failing (server unreachable, write refused) *)
  store_fault : nat -> option string;
  (** a file write failing *)
  fs_fault : nat -> option string;
  uuid_at : nat -> string;
  clock_at : nat -> Z;
  (** [Image.open(io.BytesIO(data)).size] *)
  Image_open : list byte -> result (nat * nat);
  (** [mask.save(io, format='PNG')] *)
  png_save : PIL.Image -> result (list byte);
  json_loads : string -> result json;
  (** whether the installed Pillow rejects inverted rectangles *)
  pillow_ordered_only : bool;
  (** what Pillow draws, or raises, for coordinates that single precision
      or a C [int] cannot hold as they are *)
  pillow_wide : json -> result PIL.region;
  (** the text of Pillow's exception for an entry it cannot flatten *)
  pillow_error_text : json -> string;
  (** the text of the framework's exception for a value it cannot encode *)
  unserialisable_text : string
}.

(** ** The handler monad: state and exceptions *)

Definition M (A : Type) : Type := World -> result A * World.

Definition ret {A : Type} (a : A) : M A := fun w => (inr a, w).

Definition raise {A : Type} (e : exn) : M A := fun w => (inl e, w).

Definition bind {A B : Type} (m : M A) (k : A -> M B) : M B :=
  fun w =>
    match m w with
    | (inr a, w') => k a w'
    | (inl e, w') => (inl e, w')
    end.

(** [try: body except Exception as e: handler(e)]; the effects of the
    body up to the failure stay. *)
Definition try_except {A : Type} (body : M A) (handler : exn -> M A) : M A :=
  fun w =>
    match body w with
    | (inl e, w') => handler e w'
    | (inr a, w') => (inr a, w')
    end.

Definition lift {A : Type} (r : result A) : M A := fun w => (r, w).

Definition lift_decode (r : Base64.DecodeError + list byte) : M (list byte) :=
  match r with
  | inl e => raise (Error (Base64.str_of_DecodeError e))
  | inr data => ret data
  end.

Declare Scope monad_scope.
Delimit Scope monad_scope with monad.
Notation "x <- m ;; k" := (bind m (fun x => k))
  (at level 100, m at next level, right associativity) : monad_scope.
Notation "m ;;; k" := (bind m (fun _ => k))
  (at level 100, right associativity) : monad_scope.

(** ** HTTP request and response bodies *)

Record UploadFile := mkUploadFile {
  content_type : option string;
  filename : option string;
  content : list byte
}.

Record AgeVerifyResponse := mkAgeVerifyResponse {
  avr_status : string;
  avr_message : string
}.

Record UploadResponse := mkUploadResponse {
  ur_id : string;
  ur_filename : string;
  ur_base64 : string;
  ur_size : nat
}.

Record MaskResponse := mkMaskResponse { mask_base64 : string }.

Record ImageEditResponse := mkImageEditResponse {
  id : string;
  result_image_base64 : string;
  operation_type : string;
  processing_time : Z
}.

(** [{"history": edits}], the documents as the cursor gave them *)
Record HistoryResponse := mkHistoryResponse { history : list EditDocument }.

(** ** String helpers of [upload_image] *)

(** ['.' in s] *)
Fixpoint contains_dot (s : string) : bool :=
  match s with
  | EmptyString => false
  | String c s' => Ascii.eqb c "."%char || contains_dot s'
  end.

(** [s.split('.')[-1]], reading [s] left to right with the current last
    segment in [seg]. *)
Fixpoint last_segment (s seg : string) : string :=
  match s with
  | EmptyString => seg
  | String c s' =>
      if Ascii.eqb c "."%char then last_segment s' EmptyString
      else last_segment s' (seg +:+ String c EmptyString)
  end.

(** ** The Motor cursor of [get_edit_history] *)

Module Cursor.

Definition timestamp (d : EditDocument) : Z := er_timestamp (fields d).

Fixpoint insert_desc (d : EditDocument) (l : list EditDocument) : list EditDocument :=
  match l with
  | [] => [d]
  | x :: l' =>
      if timestamp x <=? timestamp d then d :: x :: l'
      else x :: insert_desc d l'
  end.

(** [.sort("timestamp", -1)] *)
Fixpoint sort_timestamp_desc (l : list EditDocument) : list EditDocument :=
  match l with
  | [] => []
  | d :: l' => insert_desc d (sort_timestamp_desc l')
  end.

(** [.limit(n)] and [.to_list(n)] both cut the stream after [n] items. *)
Definition limit (n : nat) (l : list EditDocument) : list EditDocument := firstn n l.
Definition to_list (n : nat) (l : list EditDocument) : list EditDocument := firstn n l.

End Cursor.

(** ** Process start: the module-level [replicate_client] *)

Definition REPLICATE_API_KEY : string := "REPLICATE_API_KEY".

(** [try: replicate.Client(api_token=os.getenv(...)) except Exception: None] *)
Definition init_replicate_client (ext : Externals) (environ : gmap string string)
  : option Client :=
  match Client_new ext (environ !! REPLICATE_API_KEY) with
  | inr c => Some c
  | inl _ => None
  end.

Definition UPLOAD_DIR : string := "uploads/".

Section Handlers.

Context (ext : Externals).
Local Open Scope monad_scope.

(** *** Effectful primitives *)

Definition advance (w : World) : World :=
  mkWorld (age_verifications w) (images w) (image_edits w) (files w)
          (net w) (S (tick w)).

Definition utcnow : M Z :=
  fun w => (inr (clock_at ext (tick w)), advance w).

Definition uuid4 : M string :=
  fun w => (inr (uuid_at ext (tick w)), advance w).

(** [db.age_verifications.insert_one(doc)] *)
Definition insert_age_verification (doc : AgeVerification) : M unit :=
  fun w =>
    match store_fault ext (tick w) with
    | Some msg => (inl (Error msg), advance w)
    | None =>
        (inr tt,
         mkWorld (age_verifications w ++ [doc]) (images w) (image_edits w)
                 (files w) (net w) (S (tick w)))
    end.

(** [db.images.insert_one(doc)] *)
Definition insert_image (doc : ImageRecord) : M unit :=
  fun w =>
    match store_fault ext (tick w) with
    | Some msg => (inl (Error msg), advance w)
    | None =>
        (inr tt,
         mkWorld (age_verifications w) (images w ++ [doc]) (image_edits w)
                 (files w) (net w) (S (tick w)))
    end.

(** [db.image_edits.insert_one(doc)] *)
Definition insert_image_edit (doc : EditRecord) : M unit :=
  fun w =>
    match store_fault ext (tick w) with
    | Some msg => (inl (Error msg), advance w)
    | None =>
        (inr tt,
         mkWorld (age_verifications w) (images w) (image_edits w ++ [doc])
                 (files w) (net w) (S (tick w)))
    end.

(** [db.image_edits.find().sort("timestamp", -1).limit(50).to_list(50)] *)
Definition find_recent_edits : M (list EditDocument) :=
  fun w =>
    match store_fault ext (tick w) with
    | Some msg => (inl (Error msg), advance w)
    | None =>
        (inr (Cursor.to_list 50
                (Cursor.limit 50
                   (Cursor.sort_timestamp_desc (documents (image_edits w))))),
         advance w)
    end.

(** [async with aiofiles.open(path, 'wb') as f: await f.write(data)] *)
Definition write_file (path : string) (data : list byte) : M unit :=
  fun w =>
    match fs_fault ext (tick w) with
    | Some msg => (inl (Error msg), advance w)
    | None =>
        (inr tt,
         mkWorld (age_verifications w) (images w) (image_edits w)
                 (<[path := data]> (files w)) (net w) (S (tick w)))
    end.

(** [open(path, "rb")], read by the provider client *)
Definition open_rb (path : string) : M (list byte) :=
  fun w =>
    match files w !! path with
    | Some data => (inr data, w)
    | None => (inl (Error "No such file or directory"), w)
    end.

(** [path.unlink(missing_ok=True)] *)
Definition unlink (path : string) : M unit :=
  fun w =>
    (inr tt,
     mkWorld (age_verifications w) (images w) (image_edits w)
             (delete path (files w)) (net w) (tick w)).

Definition log_call (c : NetCall) (w : World) : World :=
  mkWorld (age_verifications w) (images w) (image_edits w) (files w)
          (net w ++ [c]) (S (tick w)).

Definition replicate_run (c : Client) (model : string) (input : RunInput)
  : M Output :=
  fun w =>
    match provider_run ext (tick w) c model input with
    | inr out => (inr out, log_call (ProviderRun model input true) w)
    | inl e => (inl e, log_call (ProviderRun model input false) w)
    end.

(** [output[0] if isinstance(output, list) else output] *)
Definition result_url (output : Output) : result string :=
  match output with
  | OutUrl url => inr url
  | OutList (url :: _) => inr url
  | OutList [] => inl (Error "list index out of range")
  end.

Definition download_image_as_base64 (url : string) : M string :=
  fun w =>
    match http_get ext (tick w) url with
    | inr body => (inr (Base64.b64encode body), log_call (HttpGet url true) w)
    | inl e => (inl e, log_call (HttpGet url false) w)
    end.

(** [image_to_base64] on a [bytes] argument *)
Definition image_to_base64 (image_bytes : list byte) : string :=
  Base64.b64encode image_bytes.

(** *** [POST /age-verify] *)
Definition age_verify (verification : AgeVerification) : M AgeVerifyResponse :=
  insert_age_verification verification ;;;
  ret (mkAgeVerifyResponse "verified" "Age verification completed").

(** *** [POST /upload-image] *)
Definition upload_image (file : UploadFile) : M UploadResponse :=
  match content_type file with
  | None => raise (Error "'NoneType' object has no attribute 'startswith'")
  | Some ct =>
      if negb (String.prefix "image/" ct) then
        raise (HTTPException 400 "File must be an image")
      else
        file_id <- uuid4 ;;
        match filename file with
        | None => raise (Error "argument of type 'NoneType' is not iterable")
        | Some name =>
            let file_extension :=
              if contains_dot name then last_segment name EmptyString
              else "jpg"%string in
            let stored := file_id +:+ "." +:+ file_extension in
            let file_path := UPLOAD_DIR +:+ stored in
            let data := content file in
            write_file file_path data ;;;
            let image_base64 := image_to_base64 data in
            now <- utcnow ;;
            insert_image
              (mkImageRecord file_id stored name ct (List.length data)
                             image_base64 now) ;;;
            ret (mkUploadResponse file_id stored image_base64 (List.length data))
        end
  end.

(** *** [POST /create-mask] *)

(** The [for coords in mask_coords] loop drawing on [mask] in place. *)
Fixpoint draw_rectangles (mask : PIL.Image) (mask_coords : list json)
  : result PIL.Image :=
  match mask_coords with
  | [] => inr mask
  | coords :: rest =>
      match py_len coords with
      | inl e => inl e
      | inr n =>
          if (4 <=? n)%nat then
            match PIL.rectangle (pillow_ordered_only ext) (pillow_wide ext)
                                (pillow_error_text ext) mask coords 255 with
            | inl e => inl e
            | inr mask' => draw_rectangles mask' rest
            end
          else draw_rectangles mask rest
      end
  end.

(** The body of the [try] up to the end of the drawing loop: the mask
    raster before it is saved as PNG. *)
Definition mask_raster (image_base64 mask_data : string) : M PIL.Image :=
  image_data <- lift_decode (Base64.b64decode image_base64) ;;
  image_size <- lift (Image_open ext image_data) ;;
  let mask := PIL.new_L image_size 0 in
  mask_coords <- lift (json_loads ext mask_data) ;;
  items <- lift (py_iter mask_coords) ;;
  lift (draw_rectangles mask items).

Definition create_mask (image_base64 mask_data : string) : M MaskResponse :=
  try_except
    (mask <- mask_raster image_base64 mask_data ;;
     png <- lift (png_save ext mask) ;;
     ret (mkMaskResponse (Base64.b64encode png)))
    (fun e =>
       raise (HTTPException 500 ("Failed to create mask: " +:+ str_exn e))).

(** *** The inference endpoints *)

(** The module-level client built at process start; [None] when the
    constructor raised. *)
Context (replicate_client : option Client).

Definition NOT_CONFIGURED : exn :=
  HTTPException 500 "Replicate API not configured. Please set REPLICATE_API_KEY.".

Definition temp_image_path (u : string) : string :=
  UPLOAD_DIR +:+ "temp_image_" +:+ u +:+ ".png".

Definition temp_mask_path (u : string) : string :=
  UPLOAD_DIR +:+ "temp_mask_" +:+ u +:+ ".png".

(** [ImageEditRequest(...)], [ImageEditResponse(...)] and the
    [insert_one] of their merged dictionaries; the request model draws
    its [id] and [timestamp] defaults when it is built. *)
Definition store_result (op prompt result_base64 : string) (elapsed : Z)
  : M ImageEditResponse :=
  edit_id <- uuid4 ;;
  edit_timestamp <- utcnow ;;
  let response := mkImageEditResponse edit_id result_base64 op elapsed in
  insert_image_edit
    (mkEditRecord (id response) (operation_type response) prompt edit_timestamp
                  (result_image_base64 response) (processing_time response)) ;;;
  ret response.

(** [POST /remove-object] *)
Definition remove_object (image_base64 mask_base64 prompt : string)
  : M ImageEditResponse :=
  match replicate_client with
  | None => raise NOT_CONFIGURED
  | Some client =>
      try_except
        (start_time <- utcnow ;;
         image_data <- lift_decode (Base64.b64decode image_base64) ;;
         mask_data <- lift_decode (Base64.b64decode mask_base64) ;;
         u1 <- uuid4 ;;
         let image_path := temp_image_path u1 in
         u2 <- uuid4 ;;
         let mask_path := temp_mask_path u2 in
         write_file image_path image_data ;;;
         write_file mask_path mask_data ;;;
         image_file <- open_rb image_path ;;
         mask_file <- open_rb mask_path ;;
         output <- replicate_run client "zsxkib/flux-dev-inpainting"
                     [ ("image", VFile image_file);
                       ("mask", VFile mask_file);
                       ("prompt", VStr prompt);
                       ("strength", VDec 95 (-2));
                       ("guidance_scale", VDec 75 (-1));
                       ("num_inference_steps", VInt 50) ]%string ;;
         url <- lift (result_url output) ;;
         result_base64 <- download_image_as_base64 url ;;
         end_time <- utcnow ;;
         response <- store_result "remove_object" prompt result_base64
                       (end_time - start_time) ;;
         unlink image_path ;;;
         unlink mask_path ;;;
         ret response)
        (fun e =>
           raise (HTTPException 500 ("Failed to remove object: " +:+ str_exn e)))
  end.

(** [if mask_base64:] on an optional form field *)
Definition truthy (field : option string) : option string :=
  match field with
  | Some EmptyString => None
  | other => other
  end.

(** [POST /add-object] *)
Definition add_object (image_base64 prompt : string) (mask_base64 : option string)
  : M ImageEditResponse :=
  match replicate_client with
  | None => raise NOT_CONFIGURED
  | Some client =>
      try_except
        (start_time <- utcnow ;;
         image_data <- lift_decode (Base64.b64decode image_base64) ;;
         u1 <- uuid4 ;;
         let image_path := temp_image_path u1 in
         write_file image_path image_data ;;;
         image_file <- open_rb image_path ;;
         let input_data :=
           [ ("image", VFile image_file);
             ("prompt", VStr prompt);
             ("strength", VDec 7 (-1));
             ("guidance_scale", VDec 75 (-1));
             ("num_inference_steps", VInt 50) ]%string in
         call <-
           match truthy mask_base64 with
           | Some mask_text =>
               mask_data <- lift_decode (Base64.b64decode mask_text) ;;
               u2 <- uuid4 ;;
               let mask_path := temp_mask_path u2 in
               write_file mask_path mask_data ;;;
               mask_file <- open_rb mask_path ;;
               ret ("zsxkib/flux-dev-inpainting"%string,
                    input_data ++ [("mask"%string, VFile mask_file)],
                    Some mask_path)
           | None =>
               ret ("black-forest-labs/flux-dev"%string, input_data, None)
           end ;;
         let '(model, input, mask_path) := call in
         output <- replicate_run client model input ;;
         url <- lift (result_url output) ;;
         result_base64 <- download_image_as_base64 url ;;
         end_time <- utcnow ;;
         response <- store_result "add_object" prompt result_base64
                       (end_time - start_time) ;;
         unlink image_path ;;;
         match mask_path with
         | Some path => unlink path
         | None => ret tt
         end ;;;
         ret response)
        (fun e =>
           raise (HTTPException 500 ("Failed to add object: " +:+ str_exn e)))
  end.

(** [POST /text-guided-edit]; [negative_prompt] is accepted and unused. *)
Definition text_guided_edit (image_base64 prompt : string)
           (negative_prompt : option string) : M ImageEditResponse :=
  match replicate_client with
  | None => raise NOT_CONFIGURED
  | Some client =>
      try_except
        (start_time <- utcnow ;;
         image_data <- lift_decode (Base64.b64decode image_base64) ;;
         u1 <- uuid4 ;;
         let image_path := temp_image_path u1 in
         write_file image_path image_data ;;;
         image_file <- open_rb image_path ;;
         output <- replicate_run client "timothybrooks/instruct-pix2pix"
                     [ ("image", VFile image_file);
                       ("prompt", VStr prompt);
                       ("num_inference_steps", VInt 50);
                       ("image_guidance_scale", VDec 12 (-1));
                       ("guidance_scale", VDec 75 (-1)) ]%string ;;
         url <- lift (result_url output) ;;
         result_base64 <- download_image_as_base64 url ;;
         end_time <- utcnow ;;
         response <- store_result "text_guided_edit" prompt result_base64
                       (end_time - start_time) ;;
         unlink image_path ;;;
         ret response)
        (fun e =>
           raise (HTTPException 500
                    ("Failed to perform text-guided edit: " +:+ str_exn e)))
  end.

(** *** [GET /edit-history] *)
Definition get_edit_history : M HistoryResponse :=
  edits <- find_recent_edits ;;
  ret (mkHistoryResponse edits).

(** What FastAPI does with the value [get_edit_history] returns: it
    encodes it as JSON.  Its encoder knows no [ObjectId], so a history
    that holds a document fails to encode and the exception leaves the
    application. *)
Definition jsonable_history (resp : HistoryResponse) : result HistoryResponse :=
  match history resp with
  | [] => inr resp
  | _ :: _ => inl (Error (unserialisable_text ext))
  end.

(** The endpoint as the client sees it: the path function, then the
    encoding of what it returned. *)
Definition edit_history_endpoint : M HistoryResponse :=
  resp <- get_edit_history ;;
  lift (jsonable_history resp).

(** The three edit operations under one name. *)
Inductive EditRequest :=
| RemoveObject (image_base64 mask_base64 prompt : string)
| AddObject (image_base64 prompt : string) (mask_base64 : option string)
| TextGuidedEdit (image_base64 prompt : string) (negative_prompt : option string).

Definition run_edit (req : EditRequest) : M ImageEditResponse :=
  match req with
  | RemoveObject image mask prompt => remove_object image mask prompt
  | AddObject image prompt mask => add_object image prompt mask
  | TextGuidedEdit image prompt negative => text_guided_edit image prompt negative
  end.

End Handlers.

(** ** Concrete surroundings

    A family of externals on which the handlers can be run.  The client
    constructor either rejects an absent token ([strict_client]) or keeps
    whatever it is given and lets the first request fail, which is how
    [replicate.Client] treats [api_token=None]. *)

Definition empty_world : World := mkWorld [] [] [] ∅ [] 0.

Definition sample_url : string := "https://replicate.delivery/out.png".

Definition sample_externals
           (strict_client provider_up download_up store_up : bool) : Externals :=
  {| Client_new := fun token =>
       match token with
       | None =>
           if strict_client then inl (Error "No API token provided")
           else inr (mkClient None)
       | Some t => inr (mkClient (Some t))
       end;
     provider_run := fun _ client _ _ =>
       match api_token client with
       | None => inl (Error "Unauthenticated")
       | Some _ =>
           if provider_up then inr (OutList [sample_url])
           else inl (Error "Prediction failed")
       end;
     http_get := fun _ _ =>
       if download_up then inr [x89; x50; x4e; x47]
       else inl (Error "Server error '502 Bad Gateway'");
     store_fault := fun _ =>
       if store_up then None else Some "connection refused"%string;
     fs_fault := fun _ => None;
     uuid_at := fun t => "uuid-" +:+ pretty t;
     clock_at := fun t => Z.of_nat t;
     Image_open := fun data =>
       match data with
       | [] => inl (Error "cannot identify image file")
       | _ => inr (100%nat, 100%nat)
       end;
     png_save := fun _ => inr [x89; x50; x4e; x47];
     json_loads := fun text =>
       if String.eqb text "[[25, 25, 75, 75]]" then
         inr (JList [JList [JInt 25; JInt 25; JInt 75; JInt 75]])
       else if String.eqb text "[[1, 2], [25, 25, 75, 75]]" then
         inr (JList [JList [JInt 1; JInt 2];
                     JList [JInt 25; JInt 25; JInt 75; JInt 75]])
       else inl (Error "Expecting value");
     pillow_ordered_only := true;
     pillow_wide := fun _ => inr (fun _ _ => false);
     pillow_error_text := fun _ => "incorrect coordinate type"%string;
     unserialisable_text := "'ObjectId' object is not iterable" |}.

(** ** Predicates used in the statements and their proofs *)

(** *** Bit-level checks on base64 groups *)

Module Base64Checks.
Import Base64.

(** Every sextet is sent to an alphabet character that is not the pad
    and that the inverse table sends back. *)
Definition sextet_ok (s : Z) : bool :=
  negb (Ascii.eqb (b2a s) BASE64_PAD)
  && (table_a2b_base64 (b2a s) =? s)
  && is_ascii (b2a s).

(** The four sextets of a three-byte group. *)
Definition sx0 (a : Z) : Z := Z.shiftr a 2.
Definition sx1 (a b : Z) : Z := Z.lor (Z.shiftl (Z.land a 3) 4) (Z.shiftr b 4).
Definition sx2 (b c : Z) : Z := Z.lor (Z.shiftl (Z.land b 15) 2) (Z.shiftr c 6).
Definition sx3 (c : Z) : Z := Z.land c 63.

Definition in64 (s : Z) : bool := (0 <=? s) && (s <? 64).

Definition pair_ok (a b : Z) : bool :=
  in64 (sx0 a) && in64 (sx1 a b) && in64 (sx2 a b) && in64 (sx3 a)
  && in64 (Z.shiftl (Z.land a 3) 4) && in64 (Z.shiftl (Z.land a 15) 2)
  && (Z.land (Z.lor (Z.shiftl (sx0 a) 2) (Z.shiftr (sx1 a b) 4)) 255 =? a)
  && (Z.land (Z.lor (Z.shiftl (sx0 a) 2)
                (Z.shiftr (Z.shiftl (Z.land a 3) 4) 4)) 255 =? a)
  && (Z.land (sx1 a b) 15 =? Z.shiftr b 4)
  && (Z.shiftr (sx2 a b) 2 =? Z.land a 15)
  && (Z.shiftr (Z.shiftl (Z.land a 15) 2) 2 =? Z.land a 15)
  && (Z.land (Z.lor (Z.shiftl (Z.shiftr a 4) 4) (Z.land a 15)) 255 =? a)
  && (Z.land (sx2 a b) 3 =? Z.shiftr b 6)
  && (Z.land (Z.lor (Z.shiftl (Z.shiftr a 6) 6) (sx3 a)) 255 =? a).

End Base64Checks.

(** *** Handler outcomes *)

(** [wp m Q w]: running [m] from world [w] ends in a result and a world
    related by [Q]. *)
Definition wp {A : Type} (m : M A) (Q : result A -> World -> Prop) (w : World) : Prop :=
  Q (fst (m w)) (snd (m w)).

(** What an edit endpoint may have done to a world [w0]: it made some
    outbound calls; on failure the edit collection is as before; on
    success exactly one record was appended and the calls are one
    successful provider run followed by one successful download. *)
Definition edit_post (w0 : World) (r : result ImageEditResponse) (w : World) : Prop :=
  exists calls : list NetCall,
    net w = net w0 ++ calls /\
    match r with
    | inl _ => image_edits w = image_edits w0
    | inr _ =>
        (exists doc, image_edits w = image_edits w0 ++ [doc]) /\
        (exists model input url,
            calls = [ProviderRun model input true; HttpGet url true])
    end.

Definition failure_prefix (req : EditRequest) : string :=
  match req with
  | RemoveObject _ _ _ => "Failed to remove object: "
  | AddObject _ _ _ => "Failed to add object: "
  | TextGuidedEdit _ _ _ => "Failed to perform text-guided edit: "
  end.

(** *** Rasters and rectangle entries *)

Module PILSpec.
Import PIL.

(** The rows of an image agree with its declared size. *)
Definition well_formed (im : Image) : Prop :=
  List.length (rows im) = height im /\
  List.Forall (fun row => List.length row = width im) (rows im).

(** Whether the rectangle entry [coords], once drawn, paints pixel
    [(x, y)]. *)
Definition covers (ordered_only : bool) (wide : json -> result region)
           (error_text : json -> string) (coords : json) (x y : nat) : bool :=
  match outline ordered_only wide error_text coords with
  | inr pixels => pixels x y
  | inl _ => false
  end.

End PILSpec.

(** [covers] with the Pillow of the surroundings. *)
Definition painted (ext : Externals) (coords : json) (x y : nat) : bool :=
  PILSpec.covers (pillow_ordered_only ext) (pillow_wide ext)
                 (pillow_error_text ext) coords x y.

(** Whether the drawing loop gets past the entry [coords]: it is either
    skipped or a rectangle the fill primitive accepts. *)
Definition accepted (ext : Externals) (coords : json) : bool :=
  match py_len coords with
  | inl _ => false
  | inr n =>
      if (4 <=? n)%nat then
        match PIL.outline (pillow_ordered_only ext) (pillow_wide ext)
                          (pillow_error_text ext) coords with
        | inr _ => true
        | inl _ => false
        end
      else true
  end.

(** *** Recency *)

(** [a] is at least as recent as [b]. *)
Definition newer_or_same (a b : EditDocument) : Prop :=
  Cursor.timestamp b <= Cursor.timestamp a.


(** ** The remaining branches of the helpers *)

(** [image_to_base64] on a [str] or [Path] argument: the file is opened
    and read, then encoded as in the [bytes] branch. *)
Definition image_to_base64_path (path : string) : M string :=
  bind (open_rb path) (fun data => ret (Base64.b64encode data)).

(** [GET /] *)
Definition root : M string :=
  ret "AI Image Editor API - Ready to process images!"%string.

(** The form fields of an edit request, by name. *)
Definition request_image (req : EditRequest) : string :=
  match req with
  | RemoveObject image _ _ => image
  | AddObject image _ _ => image
  | TextGuidedEdit image _ _ => image
  end.

Definition request_prompt (req : EditRequest) : string :=
  match req with
  | RemoveObject _ _ prompt => prompt
  | AddObject _ prompt _ => prompt
  | TextGuidedEdit _ prompt _ => prompt
  end.

(** The [operation_type] literal each handler writes. *)
Definition operation_name (req : EditRequest) : string :=
  match req with
  | RemoveObject _ _ _ => "remove_object"
  | AddObject _ _ _ => "add_object"
  | TextGuidedEdit _ _ _ => "text_guided_edit"
  end.

(** The mask field an edit request goes on to decode, if any. *)
Definition request_mask (req : EditRequest) : option string :=
  match req with
  | RemoveObject _ mask _ => Some mask
  | AddObject _ _ mask => truthy mask
  | TextGuidedEdit _ _ _ => None
  end.

(** *** Failures inside the handlers

    The failures that can arise inside the [try] block of an edit
    handler that runs with [client] on the request [req] from the world
    [w], each with the exception it raises there.  [during w t] says that
    the step at time [t] belongs to this request. *)
Definition during (w : World) (t : nat) : Prop :=
  (tick w <= t < tick w + 16)%nat.

Inductive edit_failure (ext : Externals) (client : Client) (req : EditRequest)
          (w : World) : exn -> Prop :=
| image_not_base64 (e : Base64.DecodeError) :
    Base64.b64decode (request_image req) = inl e ->
    edit_failure ext client req w (Error (Base64.str_of_DecodeError e))
| mask_not_base64 (mask : string) (e : Base64.DecodeError) :
    request_mask req = Some mask ->
    Base64.b64decode mask = inl e ->
    edit_failure ext client req w (Error (Base64.str_of_DecodeError e))
| file_write_failed (t : nat) (msg : string) :
    during w t ->
    fs_fault ext t = Some msg ->
    edit_failure ext client req w (Error msg)
| provider_failed (t : nat) (model : string) (input : RunInput) (e : exn) :
    during w t ->
    provider_run ext t client model input = inl e ->
    edit_failure ext client req w e
| output_empty (t : nat) (model : string) (input : RunInput) :
    during w t ->
    provider_run ext t client model input = inr (OutList []) ->
    edit_failure ext client req w (Error "list index out of range")
| download_failed (t : nat) (url : string) (e : exn) :
    during w t ->
    http_get ext t url = inl e ->
    edit_failure ext client req w e
| insert_failed (t : nat) (msg : string) :
    during w t ->
    store_fault ext t = Some msg ->
    edit_failure ext client req w (Error msg).

(** The failures that can arise inside the [try] block of
    [create_mask]. *)
Inductive mask_failure (ext : Externals) (image_base64 mask_data : string)
  : exn -> Prop :=
| payload_not_base64 (e : Base64.DecodeError) :
    Base64.b64decode image_base64 = inl e ->
    mask_failure ext image_base64 mask_data (Error (Base64.str_of_DecodeError e))
| image_not_identified (data : list byte) (e : exn) :
    Base64.b64decode image_base64 = inr data ->
    Image_open ext data = inl e ->
    mask_failure ext image_base64 mask_data e
| mask_data_not_json (e : exn) :
    json_loads ext mask_data = inl e ->
    mask_failure ext image_base64 mask_data e
| mask_data_not_iterable (coords : json) (e : exn) :
    json_loads ext mask_data = inr coords ->
    py_iter coords = inl e ->
    mask_failure ext image_base64 mask_data e
| entry_refused (data : list byte) (sz : nat * nat) (coords : json)
                (items : list json) (e : exn) :
    Base64.b64decode image_base64 = inr data ->
    Image_open ext data = inr sz ->
    json_loads ext mask_data = inr coords ->
    py_iter coords = inr items ->
    draw_rectangles ext (PIL.new_L sz 0) items = inl e ->
    mask_failure ext image_base64 mask_data e
| mask_not_saved (data : list byte) (sz : nat * nat) (coords : json)
                 (items : list json) (mask : PIL.Image) (e : exn) :
    Base64.b64decode image_base64 = inr data ->
    Image_open ext data = inr sz ->
    json_loads ext mask_data = inr coords ->
    py_iter coords = inr items ->
    draw_rectangles ext (PIL.new_L sz 0) items = inr mask ->
    png_save ext mask = inl e ->
    mask_failure ext image_base64 mask_data e.

(** The same surroundings with another provider behaviour. *)
Definition with_provider_run
           (ext : Externals)
           (run : nat -> Client -> string -> RunInput -> result Output)
  : Externals :=
  mkExternals (Client_new ext) run (http_get ext) (store_fault ext)
              (fs_fault ext) (uuid_at ext) (clock_at ext) (Image_open ext)
              (png_save ext) (json_loads ext) (pillow_ordered_only ext)
              (pillow_wide ext) (pillow_error_text ext)
              (unserialisable_text ext).

(* ================================================================== *)
(** * Properties *)
(* ================================================================== *)

Section BoundedCheck.

Lemma elem_of_Zrange (n : nat) (z : Z) :
  0 <= z < Z.of_nat n -> In z (Zrange n).
Proof.
  intros Hz. unfold Zrange. apply in_map_iff.
  exists (Z.to_nat z). split; [lia|]. apply in_seq. lia.
Qed.

Lemma Zrange_check (P : Z -> bool) (n : nat) :
  forallb P (Zrange n) = true ->
  forall z, 0 <= z < Z.of_nat n -> P z = true.
Proof.
  intros Hall z Hz. rewrite forallb_forall in Hall.
  apply Hall, elem_of_Zrange, Hz.
Qed.

Lemma Zrange_check2 (P : Z -> Z -> bool) (n m : nat) :
  forallb (fun x => forallb (P x) (Zrange m)) (Zrange n) = true ->
  forall x y, 0 <= x < Z.of_nat n -> 0 <= y < Z.of_nat m -> P x y = true.
Proof.
  intros Hall x y Hx Hy.
  pose proof (Zrange_check _ _ Hall x Hx) as Hrow. cbv beta in Hrow.
  exact (Zrange_check _ _ Hrow y Hy).
Qed.

End BoundedCheck.

Module Base64Facts.
Import Base64 Base64Checks.

Lemma Z_of_byte_range (b : byte) : 0 <= Z_of_byte b < 256.
Proof.
  unfold Z_of_byte. pose proof (Byte.to_N_bounded b). lia.
Qed.

Lemma byte_of_Z_of_byte (b : byte) : byte_of_Z (Z_of_byte b) = b.
Proof. destruct b; reflexivity. Qed.

Lemma sextet_ok_all (s : Z) : 0 <= s < 64 -> sextet_ok s = true.
Proof. apply (Zrange_check sextet_ok 64). vm_compute. reflexivity. Qed.

Lemma byte_of_Z_eq (z : Z) (b : byte) :
  Z.land z 255 = Z_of_byte b -> byte_of_Z z = b.
Proof.
  intros Hz. unfold byte_of_Z. rewrite Hz. unfold Z_of_byte.
  rewrite N2Z.id, Byte.of_to_N. reflexivity.
Qed.

Lemma in64_spec (s : Z) : in64 s = true -> 0 <= s < 64.
Proof. unfold in64. lia. Qed.

Lemma pair_ok_all (a b : Z) :
  0 <= a < 256 -> 0 <= b < 256 -> pair_ok a b = true.
Proof. apply (Zrange_check2 pair_ok 256 256). vm_compute. reflexivity. Qed.

Ltac split_andb H :=
  repeat match type of H with
         | (_ && _) = true =>
             let H1 := fresh H in
             apply andb_prop in H; destruct H as [H H1]
         end.

(** One data character moves the decoder one position forward. *)
Lemma a2b_loop_data (s : Z) (rest : list ascii) (quad_pos : nat)
      (leftchar : Z) (pads : nat) (out : list byte) :
  0 <= s < 64 ->
  a2b_loop (b2a s :: rest) quad_pos leftchar pads out =
  match quad_pos with
  | 0%nat => a2b_loop rest 1%nat s 0%nat out
  | 1%nat =>
      a2b_loop rest 2%nat (Z.land s 15) 0%nat
        (out ++ [byte_of_Z (Z.lor (Z.shiftl leftchar 2) (Z.shiftr s 4))])
  | 2%nat =>
      a2b_loop rest 3%nat (Z.land s 3) 0%nat
        (out ++ [byte_of_Z (Z.lor (Z.shiftl leftchar 4) (Z.shiftr s 2))])
  | _ =>
      a2b_loop rest 0%nat 0 0%nat
        (out ++ [byte_of_Z (Z.lor (Z.shiftl leftchar 6) s)])
  end.
Proof.
  intros Hs. pose proof (sextet_ok_all s Hs) as Hok.
  unfold sextet_ok in Hok. split_andb Hok.
  apply negb_true_iff in Hok. apply Z.eqb_eq in Hok1.
  cbn [a2b_loop]. rewrite Hok, Hok1.
  destruct (64 <=? s) eqn:E; [lia|]. reflexivity.
Qed.

Ltac byte_facts a b :=
  let H := fresh "Hp" in
  pose proof (pair_ok_all (Z_of_byte a) (Z_of_byte b)
                (Z_of_byte_range a) (Z_of_byte_range b)) as H;
  unfold pair_ok in H; split_andb H;
  repeat match goal with
         | H : in64 _ = true |- _ => apply in64_spec in H
         | H : (_ =? _) = true |- _ => apply Z.eqb_eq in H
         end.

(** A full group of four characters yields the three bytes it encodes. *)
Lemma a2b_loop_group (a b c : byte) (rest : list ascii) (out : list byte) :
  a2b_loop (b2a (sx0 (Z_of_byte a))
              :: b2a (sx1 (Z_of_byte a) (Z_of_byte b))
              :: b2a (sx2 (Z_of_byte b) (Z_of_byte c))
              :: b2a (sx3 (Z_of_byte c)) :: rest) 0%nat 0 0%nat out
  = a2b_loop rest 0%nat 0 0%nat (out ++ [a; b; c]).
Proof.
  byte_facts a b. byte_facts b c. byte_facts c c.
  rewrite !a2b_loop_data by assumption.
  repeat match goal with
         | H : Z.land (sx1 _ _) 15 = _ |- _ => rewrite H
         | H : Z.shiftr (sx2 _ _) 2 = _ |- _ => rewrite H
         | H : Z.land (sx2 _ _) 3 = _ |- _ => rewrite H
         end.
  rewrite (byte_of_Z_eq _ a), (byte_of_Z_eq _ b), (byte_of_Z_eq _ c)
    by assumption.
  rewrite <- !app_assoc. reflexivity.
Qed.

Lemma a2b_loop_tail1 (a : byte) (out : list byte) :
  a2b_loop [ b2a (Z.shiftr (Z_of_byte a) 2);
             b2a (Z.shiftl (Z.land (Z_of_byte a) 3) 4);
             BASE64_PAD; BASE64_PAD ] 0%nat 0 0%nat out
  = inr (out ++ [a]).
Proof.
  byte_facts a a. fold (sx0 (Z_of_byte a)).
  rewrite !a2b_loop_data by assumption.
  rewrite (byte_of_Z_eq _ a) by assumption. reflexivity.
Qed.

Lemma a2b_loop_tail2 (a b : byte) (out : list byte) :
  a2b_loop [ b2a (Z.shiftr (Z_of_byte a) 2);
             b2a (Z.lor (Z.shiftl (Z.land (Z_of_byte a) 3) 4)
                        (Z.shiftr (Z_of_byte b) 4));
             b2a (Z.shiftl (Z.land (Z_of_byte b) 15) 2);
             BASE64_PAD ] 0%nat 0 0%nat out
  = inr (out ++ [a; b]).
Proof.
  byte_facts a b. byte_facts b b.
  fold (sx0 (Z_of_byte a)). fold (sx1 (Z_of_byte a) (Z_of_byte b)).
  rewrite !a2b_loop_data by assumption.
  repeat match goal with
         | H : Z.land (sx1 _ _) 15 = _ |- _ => rewrite H
         | H : Z.shiftr (Z.shiftl _ 2) 2 = _ |- _ => rewrite H
         end.
  rewrite (byte_of_Z_eq _ a), (byte_of_Z_eq _ b) by assumption.
  rewrite <- !app_assoc. reflexivity.
Qed.

(** Induction three bytes at a time, following [b2a_base64]. *)
Lemma list_ind3 {A : Type} (P : list A -> Prop) :
  P [] -> (forall a, P [a]) -> (forall a b, P [a; b]) ->
  (forall a b c l, P l -> P (a :: b :: c :: l)) ->
  forall l, P l.
Proof.
  intros H0 H1 H2 H3.
  refine (fix go (l : list A) : P l :=
            match l with
            | [] => H0
            | [a] => H1 a
            | [a; b] => H2 a b
            | a :: b :: c :: l' => H3 a b c l' (go l')
            end).
Qed.

Lemma a2b_loop_b2a (data out : list byte) :
  a2b_loop (b2a_base64 data) 0%nat 0 0%nat out = inr (out ++ data).
Proof.
  revert out. induction data as [|a|a b|a b c l IH] using list_ind3;
    intros out.
  - cbn. rewrite app_nil_r. reflexivity.
  - apply a2b_loop_tail1.
  - apply a2b_loop_tail2.
  - cbn [b2a_base64]. cbv zeta.
    fold (sx0 (Z_of_byte a)). fold (sx1 (Z_of_byte a) (Z_of_byte b)).
    fold (sx2 (Z_of_byte b) (Z_of_byte c)). fold (sx3 (Z_of_byte c)).
    rewrite a2b_loop_group, IH, <- app_assoc. reflexivity.
Qed.

Lemma b2a_base64_ascii (data : list byte) :
  forallb is_ascii (b2a_base64 data) = true.
Proof.
  assert (Hs : forall s, 0 <= s < 64 -> is_ascii (b2a s) = true).
  { intros s Hs. pose proof (sextet_ok_all s Hs) as Hok.
    unfold sextet_ok in Hok. split_andb Hok. assumption. }
  induction data as [|a|a b|a b c l IH] using list_ind3.
  - reflexivity.
  - byte_facts a a. cbn [b2a_base64 forallb]. cbv zeta.
    fold (sx0 (Z_of_byte a)). rewrite !Hs by assumption. reflexivity.
  - byte_facts a b. byte_facts b b. cbn [b2a_base64 forallb]. cbv zeta.
    fold (sx0 (Z_of_byte a)). fold (sx1 (Z_of_byte a) (Z_of_byte b)).
    rewrite !Hs by assumption. reflexivity.
  - byte_facts a b. byte_facts b c. byte_facts c c.
    cbn [b2a_base64 forallb]. cbv zeta.
    fold (sx0 (Z_of_byte a)). fold (sx1 (Z_of_byte a) (Z_of_byte b)).
    fold (sx2 (Z_of_byte b) (Z_of_byte c)). fold (sx3 (Z_of_byte c)).
    rewrite !Hs, IH by assumption. reflexivity.
Qed.

(** Decoding what the encoder wrote gives the bytes back. *)
Lemma b64decode_b64encode (data : list byte) :
  b64decode (b64encode data) = inr data.
Proof.
  unfold b64decode, b64encode.
  rewrite list_ascii_of_string_of_list_ascii, b2a_base64_ascii.
  unfold a2b_base64. rewrite a2b_loop_b2a. reflexivity.
Qed.

End Base64Facts.

(** ** Weakest preconditions for the handler monad *)

Section WpRules.

Context (ext : Externals).
Context {A B : Type}.
Implicit Types (Q : result A -> World -> Prop) (w : World).

Lemma wp_ret (a : A) Q w : Q (inr a) w -> wp (ret a) Q w.
Proof. exact (fun H => H). Qed.

Lemma wp_raise (e : exn) Q w : Q (inl e) w -> wp (raise e) Q w.
Proof. exact (fun H => H). Qed.

Lemma wp_lift (r : result A) Q w : Q r w -> wp (lift r) Q w.
Proof. exact (fun H => H). Qed.

Lemma wp_bind (m : M B) (k : B -> M A) Q w :
  wp m (fun r w' => match r with
                    | inr b => wp (k b) Q w'
                    | inl e => Q (inl e) w'
                    end) w ->
  wp (bind m k) Q w.
Proof. unfold wp, bind. destruct (m w) as [[e|b] w']; exact (fun H => H). Qed.

Lemma wp_try_except (body : M A) (handler : exn -> M A) Q w :
  wp body (fun r w' => match r with
                       | inl e => wp (handler e) Q w'
                       | inr a => Q (inr a) w'
                       end) w ->
  wp (try_except body handler) Q w.
Proof.
  unfold wp, try_except. destruct (body w) as [[e|a] w']; exact (fun H => H).
Qed.

End WpRules.

Section WpPrimitives.

Context (ext : Externals).
Implicit Types (w : World).

Lemma wp_lift_decode (r : Base64.DecodeError + list byte) Q w :
  Q (match r with
     | inl e => inl (Error (Base64.str_of_DecodeError e))
     | inr data => inr data
     end) w ->
  wp (lift_decode r) Q w.
Proof. destruct r; exact (fun H => H). Qed.

Lemma wp_utcnow Q w :
  Q (inr (clock_at ext (tick w))) (advance w) -> wp (utcnow ext) Q w.
Proof. exact (fun H => H). Qed.

Lemma wp_uuid4 Q w :
  Q (inr (uuid_at ext (tick w))) (advance w) -> wp (uuid4 ext) Q w.
Proof. exact (fun H => H). Qed.

Lemma wp_write_file (path : string) (data : list byte) Q w :
  (forall msg, fs_fault ext (tick w) = Some msg -> Q (inl (Error msg)) (advance w)) ->
  (fs_fault ext (tick w) = None ->
   Q (inr tt)
     (mkWorld (age_verifications w) (images w) (image_edits w)
              (<[path := data]> (files w)) (net w) (S (tick w)))) ->
  wp (write_file ext path data) Q w.
Proof.
  intros Hbad Hgood. unfold wp, write_file.
  destruct (fs_fault ext (tick w)) as [msg|]; [apply Hbad | apply Hgood];
    reflexivity.
Qed.

Lemma wp_open_rb (path : string) Q w :
  (forall data, files w !! path = Some data -> Q (inr data) w) ->
  (files w !! path = None -> Q (inl (Error "No such file or directory")) w) ->
  wp (open_rb path) Q w.
Proof.
  intros Hsome Hnone. unfold wp, open_rb.
  destruct (files w !! path) as [data|]; [apply Hsome | apply Hnone];
    reflexivity.
Qed.

Lemma wp_unlink (path : string) Q w :
  Q (inr tt)
    (mkWorld (age_verifications w) (images w) (image_edits w)
             (delete path (files w)) (net w) (tick w)) ->
  wp (unlink path) Q w.
Proof. exact (fun H => H). Qed.

Lemma wp_replicate_run (c : Client) (model : string) (input : RunInput) Q w :
  (forall e, Q (inl e) (log_call (ProviderRun model input false) w)) ->
  (forall out, Q (inr out) (log_call (ProviderRun model input true) w)) ->
  wp (replicate_run ext c model input) Q w.
Proof.
  intros Hbad Hgood. unfold wp, replicate_run.
  destruct (provider_run ext (tick w) c model input); [apply Hbad | apply Hgood].
Qed.

Lemma wp_download (url : string) Q w :
  (forall e, Q (inl e) (log_call (HttpGet url false) w)) ->
  (forall text, Q (inr text) (log_call (HttpGet url true) w)) ->
  wp (download_image_as_base64 ext url) Q w.
Proof.
  intros Hbad Hgood. unfold wp, download_image_as_base64.
  destruct (http_get ext (tick w) url); [apply Hbad | apply Hgood].
Qed.

Lemma wp_insert_image_edit (doc : EditRecord) Q w :
  (forall msg, store_fault ext (tick w) = Some msg -> Q (inl (Error msg)) (advance w)) ->
  (store_fault ext (tick w) = None ->
   Q (inr tt)
     (mkWorld (age_verifications w) (images w) (image_edits w ++ [doc])
              (files w) (net w) (S (tick w)))) ->
  wp (insert_image_edit ext doc) Q w.
Proof.
  intros Hbad Hgood. unfold wp, insert_image_edit.
  destruct (store_fault ext (tick w)) as [msg|]; [apply Hbad | apply Hgood];
    reflexivity.
Qed.

End WpPrimitives.

(** One step of symbolic execution of a handler body; the world is kept
    as one [mkWorld] over the fields of the initial world. *)
Ltac wp_step :=
  lazymatch goal with
  | |- wp (bind _ _) _ _ => apply wp_bind
  | |- wp (try_except _ _) _ _ => apply wp_try_except
  | |- wp (ret _) _ _ => apply wp_ret
  | |- wp (raise _) _ _ => apply wp_raise
  | |- wp (lift ?r) _ _ => apply wp_lift; destruct r eqn:?
  | |- wp (lift_decode ?r) _ _ => apply wp_lift_decode; destruct r eqn:?
  | |- wp (utcnow _) _ _ => apply wp_utcnow
  | |- wp (uuid4 _) _ _ => apply wp_uuid4
  | |- wp (write_file _ _ _) _ _ => apply wp_write_file; [intros ? ?|intros ?]
  | |- wp (open_rb _) _ _ => apply wp_open_rb; [intros ? ?|intros ?]
  | |- wp (unlink _) _ _ => apply wp_unlink
  | |- wp (replicate_run _ _ _ _) _ _ => apply wp_replicate_run; intros ?
  | |- wp (download_image_as_base64 _ _) _ _ => apply wp_download; intros ?
  | |- wp (insert_image_edit _ _) _ _ =>
      apply wp_insert_image_edit; [intros ? ?|intros ?]
  | |- wp (store_result _ _ _ _ _) _ _ => unfold store_result
  | |- wp (match ?x with _ => _ end) _ _ => destruct x eqn:?
  end;
  cbv beta iota; unfold advance, log_call;
  cbn [age_verifications images image_edits files net tick].

(** ** Edit records are written only after both outbound calls succeeded *)

Section EditPersistence.

Context (ext : Externals) (replicate_client : option Client).

Ltac close_edit_post :=
  unfold edit_post, log_call, advance; cbn [net image_edits];
  rewrite <- ?app_assoc; cbn [app];
  first
    [ exists []; rewrite app_nil_r; split; [reflexivity|]
    | eexists; split; [reflexivity|] ];
  first [ reflexivity | split; eauto ].

Lemma remove_object_post (image mask prompt : string) (w : World) :
  wp (remove_object ext replicate_client image mask prompt) (edit_post w) w.
Proof. unfold remove_object. repeat wp_step; close_edit_post. Qed.

Lemma add_object_post (image prompt : string) (mask : option string) (w : World) :
  wp (add_object ext replicate_client image prompt mask) (edit_post w) w.
Proof. unfold add_object. repeat wp_step; close_edit_post. Qed.

Lemma text_guided_edit_post (image prompt : string) (negative : option string)
      (w : World) :
  wp (text_guided_edit ext replicate_client image prompt negative) (edit_post w) w.
Proof. unfold text_guided_edit. repeat wp_step; close_edit_post. Qed.

Lemma run_edit_post (req : EditRequest) (w : World) :
  wp (run_edit ext replicate_client req) (edit_post w) w.
Proof.
  destruct req; cbn [run_edit];
    auto using remove_object_post, add_object_post, text_guided_edit_post.
Qed.

End EditPersistence.

(** C1: for each of the three edit operations, the calls made to the
    outside are appended to the network log; if any of them failed, or if
    the request failed for any other reason, the edit collection is left
    as it was; and whenever the collection did change, exactly one record
    was appended and the request had made exactly one successful provider
    run followed by one successful download of the result. *)
Theorem failed_edit_never_persists
        (ext : Externals) (replicate_client : option Client)
        (req : EditRequest) (w : World) :
  let r := fst (run_edit ext replicate_client req w) in
  let w' := snd (run_edit ext replicate_client req w) in
  exists calls : list NetCall,
    net w' = net w ++ calls /\
    (existsb (fun c => negb (call_ok c)) calls = true ->
     image_edits w' = image_edits w) /\
    (forall e, r = inl e -> image_edits w' = image_edits w) /\
    (image_edits w' <> image_edits w ->
     exists doc model input url,
       image_edits w' = image_edits w ++ [doc] /\
       calls = [ProviderRun model input true; HttpGet url true]).
Proof.
  cbv zeta. pose proof (run_edit_post ext replicate_client req w) as Hpost.
  unfold wp, edit_post in Hpost.
  destruct Hpost as (calls & Hnet & Hcase). exists calls.
  split; [exact Hnet|].
  destruct (fst (run_edit ext replicate_client req w)) as [e|resp].
  - repeat split; auto. intros Hne. contradiction.
  - destruct Hcase as [[doc Hdoc] (model & input & url & Hcalls)].
    repeat split.
    + subst calls. cbn. discriminate.
    + intros e [=].
    + intros _. exists doc, model, input, url. auto.
Qed.

Lemma failed_edit_never_persists_witness :
  image_edits
    (snd (run_edit (sample_externals false false true true)
                   (Some (mkClient (Some "r8_token"%string)))
                   (RemoveObject "iVBORw==" "AAAA" "remove the selected object")
                   empty_world))
  = image_edits empty_world.
Proof.
  destruct (failed_edit_never_persists
              (sample_externals false false true true)
              (Some (mkClient (Some "r8_token"%string)))
              (RemoveObject "iVBORw==" "AAAA" "remove the selected object")
              empty_world) as (calls & Hnet & Hfailed & _).
  apply Hfailed. vm_compute in Hnet. rewrite <- Hnet. reflexivity.
Defined.

(** ** The configuration gate *)

(** With no client the gate works: the request is answered with the
    not-configured error and the world is untouched. *)
Lemma gate_without_client (ext : Externals) (req : EditRequest) (w : World) :
  run_edit ext None req w = (inl NOT_CONFIGURED, w).
Proof. destruct req; reflexivity. Qed.

(** C2: the credential being absent does not close the gate.  The gate
    tests the module-level client, and the client is missing only when
    its constructor raised; [replicate.Client] keeps an absent token and
    raises nothing.  So with no [REPLICATE_API_KEY] in the environment, a
    decodable image and a working upload directory, text-guided-edit does
    not answer with the not-configured error: it writes its temporary
    image file and calls the provider. *)
Theorem absent_credential_passes_gate
        (ext : Externals) (environ : gmap string string) (client : Client)
        (image prompt : string) (negative : option string) (w : World)
        (data : list byte) :
  environ !! REPLICATE_API_KEY = None ->
  Client_new ext None = inr client ->
  Base64.b64decode image = inr data ->
  fs_fault ext (S (S (tick w))) = None ->
  let out :=
    text_guided_edit ext (init_replicate_client ext environ)
                     image prompt negative w in
  fst out <> inl NOT_CONFIGURED /\
  exists input ok rest,
    In ("image"%string, VFile data) input /\
    net (snd out)
    = net w ++ ProviderRun "timothybrooks/instruct-pix2pix" input ok :: rest.
Proof.
  intros Hkey Hclient Hdecode Hfs. cbv zeta.
  unfold init_replicate_client. rewrite Hkey, Hclient.
  change (wp (text_guided_edit ext (Some client) image prompt negative)
            (fun r w' =>
               r <> inl NOT_CONFIGURED /\
               exists input ok rest,
                 In ("image"%string, VFile data) input /\
                 net w'
                 = net w ++ ProviderRun "timothybrooks/instruct-pix2pix"
                                        input ok :: rest) w).
  unfold text_guided_edit.
  repeat wp_step;
    repeat match goal with
           | H : inl _ = inr data |- _ => discriminate H
           | H : inr _ = inr data |- _ => injection H as ->
           | H : fs_fault ext _ = Some _ |- _ => cbn [tick] in H; congruence
           | H : files _ !! _ = _ |- _ =>
               cbn [files] in H; rewrite lookup_insert_eq in H;
               first [discriminate H | injection H as <-]
           end;
    (split; [unfold NOT_CONFIGURED; discriminate|]);
    cbn [net]; rewrite <- ?app_assoc; cbn [app];
    do 3 eexists; (split; [|reflexivity]); cbn [In]; auto.
Qed.

Lemma absent_credential_passes_gate_witness :
  let out :=
    text_guided_edit (sample_externals false true true true)
      (init_replicate_client (sample_externals false true true true) ∅)
      "iVBORw==" "make it blue" None empty_world in
  fst out <> inl NOT_CONFIGURED /\
  exists input ok rest,
    In ("image"%string, VFile [x89; x50; x4e; x47]) input /\
    net (snd out)
    = net empty_world
        ++ ProviderRun "timothybrooks/instruct-pix2pix" input ok :: rest.
Proof.
  apply (absent_credential_passes_gate
           (sample_externals false true true true) ∅ (mkClient None)
           "iVBORw==" "make it blue" None empty_world [x89; x50; x4e; x47]);
    reflexivity.
Defined.

(** ** Upload validation *)

(** C7: an upload whose declared content type does not start with
    ["image/"] is answered with HTTP 400 and leaves the world as it was:
    no record in any collection and no file in the upload directory. *)
Theorem upload_rejects_non_image
        (ext : Externals) (file : UploadFile) (ct : string) (w : World) :
  content_type file = Some ct ->
  String.prefix "image/" ct = false ->
  upload_image ext file w = (inl (HTTPException 400 "File must be an image"), w).
Proof.
  intros Hct Hprefix. unfold upload_image. rewrite Hct, Hprefix. reflexivity.
Qed.

Lemma upload_rejects_non_image_witness :
  upload_image (sample_externals true true true true)
               (mkUploadFile (Some "text/plain"%string) (Some "notes.txt"%string)
                             [x68; x69])
               empty_world
  = (inl (HTTPException 400 "File must be an image"), empty_world).
Proof.
  apply (upload_rejects_non_image _ _ "text/plain"); reflexivity.
Defined.

(** ** Age verification *)

(** C10: whatever the request body says, and in particular when its
    [verified] flag is false, the endpoint appends the body to the
    age-verification collection as it is and returns the fixed response
    [{"status": "verified", "message": "Age verification completed"}],
    provided the store accepts the insert. *)
Theorem age_verify_ignores_flag
        (ext : Externals) (verification : AgeVerification) (w : World) :
  store_fault ext (tick w) = None ->
  age_verify ext verification w
  = (inr (mkAgeVerifyResponse "verified" "Age verification completed"),
     mkWorld (age_verifications w ++ [verification]) (images w) (image_edits w)
             (files w) (net w) (S (tick w))).
Proof.
  intros Hup. unfold age_verify, bind, insert_age_verification, ret.
  rewrite Hup. reflexivity.
Qed.

Lemma age_verify_ignores_flag_witness :
  age_verify (sample_externals true true true true)
             (mkAgeVerification false 1700000000) empty_world
  = (inr (mkAgeVerifyResponse "verified" "Age verification completed"),
     mkWorld [mkAgeVerification false 1700000000] [] [] ∅ [] 1).
Proof.
  apply (age_verify_ignores_flag (sample_externals true true true true)
                                 (mkAgeVerification false 1700000000) empty_world).
  reflexivity.
Defined.

(** ** Failures at the handler boundary *)


(** ** The mask raster *)

Module PILFacts.
Import PIL PILSpec.

Lemma length_mapi_from {A B : Type} (f : nat -> A -> B) (i : nat) (l : list A) :
  List.length (mapi_from f i l) = List.length l.
Proof.
  revert i. induction l as [|a l IH]; intros i; cbn; [reflexivity|].
  rewrite IH. reflexivity.
Qed.

Lemma nth_mapi_from {A B : Type} (f : nat -> A -> B) (i n : nat) (l : list A)
      (dA : A) (dB : B) :
  (n < List.length l)%nat ->
  nth n (mapi_from f i l) dB = f (i + n)%nat (nth n l dA).
Proof.
  revert i n. induction l as [|a l IH]; intros i n Hn; cbn in Hn; [lia|].
  destruct n as [|n]; cbn.
  - rewrite Nat.add_0_r. reflexivity.
  - rewrite (IH (S i) n) by lia. f_equal. lia.
Qed.

Lemma Forall_mapi_from {A B : Type} (f : nat -> A -> B) (P : A -> Prop)
      (Q : B -> Prop) (i : nat) (l : list A) :
  (forall j a, P a -> Q (f j a)) ->
  List.Forall P l -> List.Forall Q (mapi_from f i l).
Proof.
  intros Hf Hall. revert i.
  induction Hall as [|a l Ha Hall IH]; intros i; cbn; constructor; auto.
Qed.

Lemma new_L_well_formed (sz : nat * nat) (color : Z) :
  well_formed (new_L sz color).
Proof.
  split; cbn.
  - apply repeat_length.
  - apply List.Forall_forall. intros row Hrow.
    apply repeat_spec in Hrow. subst row. apply repeat_length.
Qed.

Lemma getpixel_new_L (sz : nat * nat) (color : Z) (x y : nat) :
  (x < fst sz)%nat -> (y < snd sz)%nat -> getpixel (new_L sz color) x y = color.
Proof.
  intros Hx Hy. unfold getpixel, new_L. cbn [rows].
  rewrite nth_repeat_lt by exact Hy. apply nth_repeat_lt, Hx.
Qed.

Lemma paint_well_formed (im : Image) (pixels : region) (ink : Z) :
  well_formed im -> well_formed (paint im pixels ink).
Proof.
  intros [Hh Hw]. split; cbn.
  - rewrite length_mapi_from. exact Hh.
  - eapply Forall_mapi_from; [|exact Hw].
    intros j row Hrow. cbn beta. rewrite length_mapi_from. exact Hrow.
Qed.

Lemma getpixel_paint (im : Image) (pixels : region) (ink : Z) (x y : nat) :
  well_formed im -> (x < width im)%nat -> (y < height im)%nat ->
  getpixel (paint im pixels ink) x y
  = if pixels x y then ink else getpixel im x y.
Proof.
  intros [Hh Hw] Hx Hy. unfold getpixel, paint. cbn [rows].
  rewrite (nth_mapi_from _ 0 y (rows im) [] []) by lia.
  assert (Hrow : List.length (nth y (rows im) []) = width im).
  { rewrite List.Forall_forall in Hw. apply Hw, nth_In. lia. }
  rewrite (nth_mapi_from _ 0 x _ 0 0) by lia.
  reflexivity.
Qed.

(** An entry the loop skips is one the fill primitive would refuse. *)
Lemma outline_short (ordered_only : bool) (wide : json -> result region)
      (error_text : json -> string) (coords : json) (n : nat) :
  py_len coords = inr n -> (n < 4)%nat ->
  exists e, outline ordered_only wide error_text coords = inl e.
Proof.
  destruct coords as [| | | | |code_points|items|members]; cbn [py_len];
    try discriminate; intros [= <-] Hn; cbn [outline]; eauto.
  destruct (negb (forallb is_number items)); [eauto|].
  destruct (existsb overflows_long items); [eauto|].
  destruct items as [|c0 [|c1 [|c2 [|c3 [|c4 items]]]]]; cbn in Hn;
    try lia; cbn; eauto.
Qed.

End PILFacts.

Section MaskFacts.

Context (ext : Externals).
Import PIL PILSpec PILFacts.

Lemma painted_short (coords : json) (n x y : nat) :
  py_len coords = inr n -> (n < 4)%nat -> painted ext coords x y = false.
Proof.
  intros Hlen Hn. unfold painted, covers.
  destruct (outline_short (pillow_ordered_only ext) (pillow_wide ext)
              (pillow_error_text ext) coords n Hlen Hn) as [e ->].
  reflexivity.
Qed.

Lemma draw_rectangles_accepted (mask : Image) (items : list json) :
  forallb (accepted ext) items = true ->
  exists mask', draw_rectangles ext mask items = inr mask'.
Proof.
  revert mask. induction items as [|coords rest IH]; intros mask Hall.
  - exists mask. reflexivity.
  - cbn in Hall. apply andb_prop in Hall. destruct Hall as [Hc Hrest].
    unfold accepted in Hc. cbn [draw_rectangles]. unfold rectangle.
    destruct (py_len coords) as [e|n]; [discriminate|].
    destruct (4 <=? n)%nat; [|apply IH, Hrest].
    destruct (outline _ _ _ coords) as [e|pixels]; [discriminate|].
    apply IH, Hrest.
Qed.

(** The mask after the loop: same shape, and a pixel is white exactly
    when some entry of the list paints it (or it was white before). *)
Lemma draw_rectangles_inr (items : list json) (mask mask' : Image) :
  draw_rectangles ext mask items = inr mask' ->
  well_formed mask ->
  well_formed mask' /\ width mask' = width mask /\ height mask' = height mask /\
  forall x y, (x < width mask)%nat -> (y < height mask)%nat ->
    getpixel mask' x y
    = if existsb (fun coords => painted ext coords x y) items then 255
      else getpixel mask x y.
Proof.
  revert mask. induction items as [|coords rest IH]; intros mask Hdraw Hwf.
  - cbn in Hdraw. injection Hdraw as <-.
    split; [exact Hwf|]. do 2 (split; [reflexivity|]). reflexivity.
  - cbn [draw_rectangles] in Hdraw.
    destruct (py_len coords) as [e|n] eqn:Hlen; [discriminate|].
    destruct (4 <=? n)%nat eqn:Hn.
    + unfold rectangle in Hdraw.
      destruct (outline (pillow_ordered_only ext) (pillow_wide ext)
                  (pillow_error_text ext) coords) as [e|pixels] eqn:Hout;
        [discriminate|].
      destruct (IH _ Hdraw (paint_well_formed _ pixels 255 Hwf))
        as (Hwf' & Hw & Hh & Hpx).
      cbn [width height paint] in Hw, Hh, Hpx.
      split; [exact Hwf'|]. split; [exact Hw|]. split; [exact Hh|].
      intros x y Hx Hy. rewrite (Hpx x y Hx Hy).
      rewrite getpixel_paint by assumption.
      cbn [existsb]. unfold painted at 2, covers. rewrite Hout.
      destruct (pixels x y); destruct (existsb _ rest); reflexivity.
    + destruct (IH _ Hdraw Hwf) as (Hwf' & Hw & Hh & Hpx).
      split; [exact Hwf'|]. split; [exact Hw|]. split; [exact Hh|].
      intros x y Hx Hy. rewrite (Hpx x y Hx Hy). cbn [existsb].
      rewrite (painted_short coords n x y Hlen) by (apply Nat.leb_gt, Hn).
      reflexivity.
Qed.

Lemma mask_raster_eq (image_base64 mask_data : string) (w : World)
      (data : list byte) (sz : nat * nat) (coords : json) (items : list json) :
  Base64.b64decode image_base64 = inr data ->
  Image_open ext data = inr sz ->
  json_loads ext mask_data = inr coords ->
  py_iter coords = inr items ->
  mask_raster ext image_base64 mask_data w
  = (draw_rectangles ext (new_L sz 0) items, w).
Proof.
  intros Hdec Hopen Hjson Hiter.
  unfold mask_raster, bind, lift, lift_decode.
  rewrite Hdec. cbn. rewrite Hopen, Hjson, Hiter.
  destruct (draw_rectangles ext (new_L sz 0) items); reflexivity.
Qed.

End MaskFacts.

(** The HTTP response of [create_mask] once the raster is known. *)
Lemma create_mask_of_raster (ext : Externals) (image_base64 mask_data : string)
      (w : World) (mask : PIL.Image) :
  mask_raster ext image_base64 mask_data w = (inr mask, w) ->
  create_mask ext image_base64 mask_data w
  = (match png_save ext mask with
     | inr png => inr (mkMaskResponse (Base64.b64encode png))
     | inl e =>
         inl (HTTPException 500 ("Failed to create mask: " +:+ str_exn e))
     end, w).
Proof.
  intros Hraster. unfold create_mask, try_except, bind. rewrite Hraster.
  unfold lift. destruct (png_save ext mask); reflexivity.
Qed.

(** The HTTP response of [create_mask] when the raster is not produced. *)
Lemma create_mask_of_failure (ext : Externals) (image_base64 mask_data : string)
      (w : World) (e : exn) :
  mask_raster ext image_base64 mask_data w = (inl e, w) ->
  create_mask ext image_base64 mask_data w
  = (inl (HTTPException 500 ("Failed to create mask: " +:+ str_exn e)), w).
Proof.
  intros Hraster. unfold create_mask, try_except, bind. rewrite Hraster.
  reflexivity.
Qed.

(** C8: for a source image that decodes with size [sz] and any rectangle
    list, create-mask starts from a canvas of that size that is black (0)
    everywhere and draws the entries on it.  When the drawing goes
    through, the mask has exactly the width and height of the source and
    one 8-bit channel, is white (255) at the pixels some entry paints and
    still black at all others, and the response is the base64 of the PNG
    of that very raster; when an entry is refused the endpoint answers
    with that failure and no mask.  The drawing goes through whenever
    every entry is one the loop skips or the fill primitive accepts. *)
Theorem mask_has_source_size
        (ext : Externals) (image_base64 mask_data : string) (w : World)
        (data : list byte) (sz : nat * nat) (coords : json) (items : list json) :
  Base64.b64decode image_base64 = inr data ->
  Image_open ext data = inr sz ->
  json_loads ext mask_data = inr coords ->
  py_iter coords = inr items ->
  PIL.size (PIL.new_L sz 0) = sz /\
  (forall x y, (x < fst sz)%nat -> (y < snd sz)%nat ->
               PIL.getpixel (PIL.new_L sz 0) x y = 0) /\
  match draw_rectangles ext (PIL.new_L sz 0) items with
  | inr mask =>
      PIL.size mask = sz /\
      PILSpec.well_formed mask /\
      (forall x y, (x < fst sz)%nat -> (y < snd sz)%nat ->
         PIL.getpixel mask x y
         = if existsb (fun c => painted ext c x y) items then 255 else 0) /\
      create_mask ext image_base64 mask_data w
      = (match png_save ext mask with
         | inr png => inr (mkMaskResponse (Base64.b64encode png))
         | inl e =>
             inl (HTTPException 500 ("Failed to create mask: " +:+ str_exn e))
         end, w)
  | inl e =>
      create_mask ext image_base64 mask_data w
      = (inl (HTTPException 500 ("Failed to create mask: " +:+ str_exn e)), w)
  end /\
  (forallb (accepted ext) items = true ->
   exists mask, draw_rectangles ext (PIL.new_L sz 0) items = inr mask).
Proof.
  intros Hdec Hopen Hjson Hiter.
  pose proof (mask_raster_eq ext _ _ w data sz coords items
                Hdec Hopen Hjson Hiter) as Hraster.
  split; [destruct sz; reflexivity|].
  split; [intros x y Hx Hy; apply PILFacts.getpixel_new_L; assumption|].
  split; [|apply draw_rectangles_accepted].
  destruct (draw_rectangles ext (PIL.new_L sz 0) items) as [e|mask] eqn:Hdraw.
  - apply create_mask_of_failure, Hraster.
  - destruct (draw_rectangles_inr ext items _ _ Hdraw
                (PILFacts.new_L_well_formed sz 0)) as (Hwf & Hw & Hh & Hpx).
    cbn [PIL.new_L PIL.width PIL.height] in Hw, Hh, Hpx.
    split; [unfold PIL.size; rewrite Hw, Hh; destruct sz; reflexivity|].
    split; [exact Hwf|]. split; [|apply create_mask_of_raster, Hraster].
    intros x y Hx Hy. rewrite (Hpx x y Hx Hy).
    rewrite PILFacts.getpixel_new_L by assumption. reflexivity.
Qed.

Lemma mask_has_source_size_witness :
  exists mask png,
    create_mask (sample_externals true true true true)
                "iVBORw==" "[[25, 25, 75, 75]]" empty_world
    = (inr (mkMaskResponse (Base64.b64encode png)), empty_world) /\
    png_save (sample_externals true true true true) mask = inr png /\
    PIL.size mask = (100%nat, 100%nat).
Proof.
  destruct (mask_has_source_size
              (sample_externals true true true true)
              "iVBORw==" "[[25, 25, 75, 75]]" empty_world
              [x89; x50; x4e; x47] (100%nat, 100%nat)
              (JList [JList [JInt 25; JInt 25; JInt 75; JInt 75]])
              [JList [JInt 25; JInt 25; JInt 75; JInt 75]])
    as (_ & _ & Hmask & Hproduced); try (vm_compute; reflexivity).
  destruct Hproduced as [mask Hdraw]; [vm_compute; reflexivity|].
  rewrite Hdraw in Hmask. destruct Hmask as (Hsize & _ & _ & Hresp).
  exists mask, [x89; x50; x4e; x47].
  split; [exact Hresp|]. split; [reflexivity | exact Hsize].
Defined.

(** C5: with the rectangle list [[25,25,75,75]] and a source image that
    decodes to 100 x 100, the mask is 100 x 100, white (255) at the pixels
    with 25 <= x <= 75 and 25 <= y <= 75 (the fill primitive includes both
    corners) and black (0) at every other pixel; the response carries the
    PNG of that raster. *)
Theorem mask_of_single_rectangle
        (ext : Externals) (image_base64 mask_data : string) (w : World)
        (data : list byte) :
  Base64.b64decode image_base64 = inr data ->
  Image_open ext data = inr (100%nat, 100%nat) ->
  json_loads ext mask_data
  = inr (JList [JList [JInt 25; JInt 25; JInt 75; JInt 75]]) ->
  exists mask,
    mask_raster ext image_base64 mask_data w = (inr mask, w) /\
    PIL.size mask = (100%nat, 100%nat) /\
    (forall x y, (x < 100)%nat -> (y < 100)%nat ->
       PIL.getpixel mask x y
       = if ((25 <=? x) && (x <=? 75) && ((25 <=? y) && (y <=? 75)))%nat
         then 255 else 0) /\
    create_mask ext image_base64 mask_data w
    = (match png_save ext mask with
       | inr png => inr (mkMaskResponse (Base64.b64encode png))
       | inl e =>
           inl (HTTPException 500 ("Failed to create mask: " +:+ str_exn e))
       end, w).
Proof.
  intros Hdec Hopen Hjson.
  set (entry := JList [JInt 25; JInt 25; JInt 75; JInt 75]) in *.
  pose proof (mask_raster_eq ext image_base64 mask_data w data
                (100%nat, 100%nat) (JList [entry]) [entry]
                Hdec Hopen Hjson eq_refl) as Hraster.
  destruct (draw_rectangles_accepted ext (PIL.new_L (100%nat, 100%nat) 0) [entry])
    as [mask Hmask].
  { unfold accepted, entry. cbn.
    destruct (pillow_ordered_only ext); reflexivity. }
  rewrite Hmask in Hraster. exists mask.
  destruct (draw_rectangles_inr ext [entry] _ _ Hmask
              (PILFacts.new_L_well_formed (100%nat, 100%nat) 0))
    as (Hwf & Hw & Hh & Hpx).
  cbn [PIL.new_L PIL.width PIL.height fst snd] in Hw, Hh, Hpx.
  split; [exact Hraster|]. split; [unfold PIL.size; congruence|].
  split; [|apply create_mask_of_raster, Hraster].
  intros x y Hx Hy. rewrite (Hpx x y Hx Hy).
  rewrite PILFacts.getpixel_new_L by assumption.
  cbn [existsb]. rewrite orb_false_r.
  replace (painted ext entry x y)
    with (PIL.box 25 25 75 75 x y)
    by (unfold painted, PILSpec.covers, entry; cbn;
        destruct (pillow_ordered_only ext); reflexivity).
  unfold PIL.box, PIL.in_span.
  replace (Z.min 25 75) with 25 by reflexivity.
  replace (Z.max 25 75) with 75 by reflexivity.
  destruct (Nat.leb_spec 25 x); destruct (Nat.leb_spec x 75);
    destruct (Nat.leb_spec 25 y); destruct (Nat.leb_spec y 75);
    destruct (Z.leb_spec 25 (Z.of_nat x)); destruct (Z.leb_spec (Z.of_nat x) 75);
    destruct (Z.leb_spec 25 (Z.of_nat y)); destruct (Z.leb_spec (Z.of_nat y) 75);
    try reflexivity; lia.
Qed.

Lemma mask_of_single_rectangle_witness :
  exists mask,
    mask_raster (sample_externals true true true true)
                "iVBORw==" "[[25, 25, 75, 75]]" empty_world
    = (inr mask, empty_world)
    /\ PIL.getpixel mask 25 75 = 255
    /\ PIL.getpixel mask 76 75 = 0.
Proof.
  destruct (mask_of_single_rectangle
              (sample_externals true true true true)
              "iVBORw==" "[[25, 25, 75, 75]]" empty_world [x89; x50; x4e; x47])
    as (mask & Hraster & _ & Hpx & _); try (vm_compute; reflexivity).
  exists mask. split; [exact Hraster|].
  split; [apply (Hpx 25 75)%nat; lia | apply (Hpx 76 75)%nat; lia].
Defined.

(** C9: an entry of the rectangle list with fewer than four values draws
    nothing; the raster after the loop, and the response of the endpoint,
    are those of the list without that entry. *)
Theorem short_entry_is_skipped
        (ext : Externals) (before after values : list json) :
  (List.length values < 4)%nat ->
  (forall mask,
      draw_rectangles ext mask (before ++ JList values :: after)
      = draw_rectangles ext mask (before ++ after))
  /\ (forall image_base64 mask_data mask_data' w,
         json_loads ext mask_data = inr (JList (before ++ JList values :: after)) ->
         json_loads ext mask_data' = inr (JList (before ++ after)) ->
         create_mask ext image_base64 mask_data w
         = create_mask ext image_base64 mask_data' w).
Proof.
  intros Hshort.
  assert (Hloop : forall mask,
             draw_rectangles ext mask (before ++ JList values :: after)
             = draw_rectangles ext mask (before ++ after)).
  { induction before as [|coords before IH]; intros mask.
    - cbn [app draw_rectangles py_len].
      destruct (4 <=? List.length values)%nat eqn:Hn; [|reflexivity].
      apply Nat.leb_le in Hn. lia.
    - cbn [app draw_rectangles].
      destruct (py_len coords) as [e|n]; [reflexivity|].
      destruct (4 <=? n)%nat; [|apply IH].
      destruct (PIL.rectangle _ _ _ mask coords 255); [reflexivity|apply IH]. }
  split; [exact Hloop|].
  intros image_base64 mask_data mask_data' w Hjson Hjson'.
  unfold create_mask, try_except, mask_raster, bind, lift, lift_decode.
  destruct (Base64.b64decode image_base64) as [e|data]; [reflexivity|].
  cbn. destruct (Image_open ext data) as [e|sz]; [reflexivity|].
  rewrite Hjson, Hjson'. cbn [py_iter]. rewrite Hloop. reflexivity.
Qed.

Lemma short_entry_is_skipped_witness :
  create_mask (sample_externals true true true true)
              "iVBORw==" "[[1, 2], [25, 25, 75, 75]]" empty_world
  = create_mask (sample_externals true true true true)
                "iVBORw==" "[[25, 25, 75, 75]]" empty_world.
Proof.
  destruct (short_entry_is_skipped
              (sample_externals true true true true)
              [] [JList [JInt 25; JInt 25; JInt 75; JInt 75]] [JInt 1; JInt 2])
    as [_ Hresp]; [cbn; lia|].
  apply Hresp; reflexivity.
Defined.

(** ** Edit history *)

Module CursorFacts.
Import Cursor.

Lemma insert_desc_perm (d : EditDocument) (l : list EditDocument) :
  Permutation (insert_desc d l) (d :: l).
Proof.
  induction l as [|x l IH]; cbn; [reflexivity|].
  destruct (timestamp x <=? timestamp d); [reflexivity|].
  rewrite IH. apply perm_swap.
Qed.

Lemma sort_timestamp_desc_perm (l : list EditDocument) :
  Permutation (sort_timestamp_desc l) l.
Proof.
  induction l as [|d l IH]; cbn; [reflexivity|].
  rewrite insert_desc_perm, IH. reflexivity.
Qed.

Lemma insert_desc_sorted (d : EditDocument) (l : list EditDocument) :
  StronglySorted newer_or_same l -> StronglySorted newer_or_same (insert_desc d l).
Proof.
  induction 1 as [|x l Hsorted IH Hx]; cbn.
  - repeat constructor.
  - destruct (Z.leb_spec (timestamp x) (timestamp d)) as [Hle|Hlt].
    + constructor; [constructor; assumption|].
      constructor; [exact Hle|].
      eapply List.Forall_impl; [|exact Hx].
      intros b Hb. unfold newer_or_same in *. lia.
    + constructor; [exact IH|].
      apply List.Forall_forall. intros b Hb.
      apply (Permutation_in _ (insert_desc_perm d l)) in Hb.
      destruct Hb as [<-|Hb]; [unfold newer_or_same; lia|].
      rewrite List.Forall_forall in Hx. apply Hx, Hb.
Qed.

Lemma sort_timestamp_desc_sorted (l : list EditDocument) :
  StronglySorted newer_or_same (sort_timestamp_desc l).
Proof.
  induction l as [|d l IH]; cbn; [constructor|].
  apply insert_desc_sorted, IH.
Qed.

Lemma In_firstn_In {A : Type} (n : nat) (l : list A) (a : A) :
  In a (firstn n l) -> In a l.
Proof.
  revert n. induction l as [|x l IH]; intros [|n]; cbn; try tauto.
  intros [->|Ha]; [left; reflexivity|right; eapply IH, Ha].
Qed.

(** The part of a sorted list that a cut keeps is sorted. *)
Lemma sorted_firstn (n : nat) (l : list EditDocument) :
  StronglySorted newer_or_same l -> StronglySorted newer_or_same (firstn n l).
Proof.
  intros Hsorted. revert n.
  induction Hsorted as [|x l Hsorted IH Hx]; intros n.
  - rewrite firstn_nil. constructor.
  - destruct n as [|n]; cbn [firstn]; [constructor|].
    constructor; [apply IH|].
    rewrite List.Forall_forall in Hx. apply List.Forall_forall.
    intros b Hb. apply Hx. apply (In_firstn_In n). exact Hb.
Qed.

Lemma length_documents (records : list EditRecord) :
  List.length (documents records) = List.length records.
Proof. unfold documents. apply length_imap. Qed.

End CursorFacts.

(** C6: the ordering is computed but never delivered.  While the store
    answers and the edit collection is not empty, [get_edit_history]
    returns the stored documents most recent first, at most 50 of them
    (for three records inserted with T1 < T2 < T3: those of T3, T2, T1),
    each with the [_id] the store gave it; the framework cannot encode
    that value, so the endpoint ends in an exception, not in the
    history. *)
Theorem edit_history_fails_to_encode (ext : Externals) (w : World) :
  store_fault ext (tick w) = None ->
  image_edits w <> [] ->
  exists docs,
    fst (get_edit_history ext w) = inr (mkHistoryResponse docs) /\
    docs <> [] /\
    List.length docs = Nat.min 50 (List.length (image_edits w)) /\
    StronglySorted newer_or_same docs /\
    (forall r1 r2 r3,
        image_edits w = [r1; r2; r3] ->
        er_timestamp r1 < er_timestamp r2 ->
        er_timestamp r2 < er_timestamp r3 ->
        map fields docs = [r3; r2; r1]) /\
    fst (edit_history_endpoint ext w) = inl (Error (unserialisable_text ext)).
Proof.
  intros Hup Hnonempty.
  set (docs := firstn 50 (Cursor.sort_timestamp_desc (documents (image_edits w)))).
  assert (Hget : get_edit_history ext w = (inr (mkHistoryResponse docs), advance w)).
  { unfold get_edit_history, bind, find_recent_edits, ret. rewrite Hup.
    unfold Cursor.to_list, Cursor.limit. rewrite firstn_firstn. reflexivity. }
  assert (Hlen : List.length docs = Nat.min 50 (List.length (image_edits w))).
  { unfold docs. rewrite length_firstn.
    rewrite (Permutation_length (CursorFacts.sort_timestamp_desc_perm _)).
    rewrite CursorFacts.length_documents. reflexivity. }
  assert (Hdocs : docs <> []).
  { intros Hnil. rewrite Hnil in Hlen. cbn [List.length] in Hlen.
    destruct (image_edits w); [congruence|]. cbn [List.length] in Hlen. lia. }
  exists docs. rewrite Hget. cbn [fst].
  split; [reflexivity|]. split; [exact Hdocs|]. split; [exact Hlen|].
  split; [apply CursorFacts.sorted_firstn, CursorFacts.sort_timestamp_desc_sorted|].
  split.
  - intros r1 r2 r3 Hthree H12 H23. unfold docs. rewrite Hthree.
    change (documents [r1; r2; r3])
      with [mkEditDocument (mkObjectId 0) r1; mkEditDocument (mkObjectId 1) r2;
            mkEditDocument (mkObjectId 2) r3].
    cbn [Cursor.sort_timestamp_desc].
    repeat (cbn [Cursor.insert_desc]; unfold Cursor.timestamp; cbn [fields];
            match goal with
            | |- context [?a <=? ?b] => destruct (Z.leb_spec a b); [lia|]
            end).
    reflexivity.
  - unfold edit_history_endpoint, bind. rewrite Hget.
    unfold lift, jsonable_history. cbn [history fst].
    destruct docs; [congruence|reflexivity].
Qed.

Lemma edit_history_fails_to_encode_witness :
  fst (edit_history_endpoint (sample_externals true true true true)
         (mkWorld [] []
            [ mkEditRecord "a" "remove_object" "p" 10 "AA==" 3;
              mkEditRecord "b" "add_object" "q" 20 "AA==" 3;
              mkEditRecord "c" "text_guided_edit" "r" 30 "AA==" 3 ]
            ∅ [] 3))
  = inl (Error "'ObjectId' object is not iterable").
Proof.
  destruct (edit_history_fails_to_encode
              (sample_externals true true true true)
              (mkWorld [] []
                 [ mkEditRecord "a" "remove_object" "p" 10 "AA==" 3;
                   mkEditRecord "b" "add_object" "q" 20 "AA==" 3;
                   mkEditRecord "c" "text_guided_edit" "r" 30 "AA==" 3 ]
                 ∅ [] 3))
    as (docs & _ & _ & _ & _ & _ & Hfails); [reflexivity | discriminate |].
  exact Hfails.
Defined.


(* ================================================================== *)
(** * Further properties of the handlers *)
(* ================================================================== *)

(** ** Uploads *)

Lemma append_cons (ch : ascii) (a b : string) :
  String ch a +:+ b = String ch (a +:+ b).
Proof. reflexivity. Qed.

Lemma append_empty_l (b : string) : EmptyString +:+ b = b.
Proof. reflexivity. Qed.

Lemma append_empty_r (a : string) : a +:+ EmptyString = a.
Proof.
  induction a as [|ch a IH]; [reflexivity|]. rewrite append_cons, IH. reflexivity.
Qed.

Lemma append_assoc (a b c : string) : (a +:+ b) +:+ c = a +:+ b +:+ c.
Proof.
  induction a as [|ch a IH]; [reflexivity|].
  rewrite !append_cons, IH. reflexivity.
Qed.

Lemma contains_dot_app (a b : string) :
  contains_dot (a +:+ b) = contains_dot a || contains_dot b.
Proof.
  induction a as [|ch a IH]; [reflexivity|].
  rewrite append_cons. cbn [contains_dot]. rewrite IH, orb_assoc. reflexivity.
Qed.

Lemma last_segment_no_dot (s seg : string) :
  contains_dot seg = false -> contains_dot (last_segment s seg) = false.
Proof.
  revert seg. induction s as [|ch s IH]; intros seg Hseg;
    cbn [last_segment]; [exact Hseg|].
  destruct (Ascii.eqb ch ".") eqn:Hch.
  - apply IH. reflexivity.
  - apply IH. rewrite contains_dot_app, Hseg. cbn [contains_dot orb].
    rewrite Hch. reflexivity.
Qed.

(** [last_segment] returns what follows the last dot, or everything read
    so far when there is none. *)
Lemma last_segment_spec (s seg : string) :
  if contains_dot s
  then exists stem, seg +:+ s = stem +:+ "." +:+ last_segment s seg
  else last_segment s seg = seg +:+ s.
Proof.
  revert seg. induction s as [|ch s IH]; intros seg;
    cbn [contains_dot last_segment].
  - rewrite append_empty_r. reflexivity.
  - destruct (Ascii.eqb_spec ch ".") as [->|Hch]; cbn [orb].
    + specialize (IH EmptyString). rewrite append_empty_l in IH.
      destruct (contains_dot s).
      * destruct IH as [stem Hstem]. exists (seg +:+ "." +:+ stem).
        rewrite !append_assoc. rewrite Hstem at 1. reflexivity.
      * exists seg. rewrite IH. reflexivity.
    + specialize (IH (seg +:+ String ch EmptyString)).
      rewrite append_assoc, append_cons, append_empty_l in IH. exact IH.
Qed.

(** Decoding undoes encoding (from the group lemmas of the codec). *)
Lemma decode_encode (data : list byte) :
  Base64.b64decode (Base64.b64encode data) = inr data.
Proof.
  unfold Base64.b64decode, Base64.b64encode.
  rewrite list_ascii_of_string_of_list_ascii, Base64Facts.b2a_base64_ascii.
  unfold Base64.a2b_base64. rewrite Base64Facts.a2b_loop_b2a. reflexivity.
Qed.

(** A successful upload: when the declared type is an image type, the
    part carries a file name, and the file write and the insert both go
    through, the endpoint answers with the size of the content and a
    base64 text that decodes to exactly the uploaded bytes; the bytes are
    in the upload directory under the returned file name; one image
    record carrying the same id, file name, size and text is appended;
    nothing else in the world moves. *)
Theorem upload_image_success
        (ext : Externals) (file : UploadFile) (ct name : string) (w : World) :
  content_type file = Some ct ->
  String.prefix "image/" ct = true ->
  filename file = Some name ->
  (forall t, fs_fault ext t = None) ->
  (forall t, store_fault ext t = None) ->
  exists resp now,
    fst (upload_image ext file w) = inr resp /\
    ur_size resp = List.length (content file) /\
    Base64.b64decode (ur_base64 resp) = inr (content file) /\
    files (snd (upload_image ext file w))
    = <[UPLOAD_DIR +:+ ur_filename resp := content file]> (files w) /\
    images (snd (upload_image ext file w))
    = images w ++ [mkImageRecord (ur_id resp) (ur_filename resp) name ct
                                 (ur_size resp) (ur_base64 resp) now] /\
    age_verifications (snd (upload_image ext file w)) = age_verifications w /\
    image_edits (snd (upload_image ext file w)) = image_edits w /\
    net (snd (upload_image ext file w)) = net w.
Proof.
  intros Hct Hprefix Hname Hfs Hstore.
  unfold upload_image. rewrite Hct, Hprefix, Hname. cbn [negb].
  unfold bind, uuid4, write_file, utcnow, insert_image, ret, advance.
  cbn [tick files images]. rewrite Hfs. cbn [tick files images].
  rewrite Hstore. cbn [fst snd images files age_verifications image_edits net].
  do 2 eexists. split; [reflexivity|]. cbn [ur_size ur_base64 ur_filename ur_id].
  split; [reflexivity|]. split; [apply decode_encode|].
  repeat split; reflexivity.
Qed.

Lemma upload_image_success_witness :
  exists resp,
    fst (upload_image (sample_externals true true true true)
           (mkUploadFile (Some "image/png"%string) (Some "cat.png"%string)
                         [x89; x50; x4e; x47])
           empty_world) = inr resp
    /\ Base64.b64decode (ur_base64 resp) = inr [x89; x50; x4e; x47].
Proof.
  destruct (upload_image_success
              (sample_externals true true true true)
              (mkUploadFile (Some "image/png"%string) (Some "cat.png"%string)
                            [x89; x50; x4e; x47])
              "image/png" "cat.png" empty_world)
    as (resp & now & Hresp & _ & Hdecode & _); try reflexivity.
  exists resp. split; [exact Hresp | exact Hdecode].
Defined.

(** When the insert fails after the file was written, the request fails
    with the store's error and no record, but the uploaded bytes stay in
    the upload directory: the write is not undone. *)
Theorem upload_image_store_failure_keeps_file
        (ext : Externals) (file : UploadFile) (ct name msg : string) (w : World) :
  content_type file = Some ct ->
  String.prefix "image/" ct = true ->
  filename file = Some name ->
  fs_fault ext (S (tick w)) = None ->
  store_fault ext (S (S (S (tick w)))) = Some msg ->
  fst (upload_image ext file w) = inl (Error msg) /\
  images (snd (upload_image ext file w)) = images w /\
  exists stored,
    files (snd (upload_image ext file w))
    = <[UPLOAD_DIR +:+ stored := content file]> (files w).
Proof.
  intros Hct Hprefix Hname Hfs Hstore.
  unfold upload_image. rewrite Hct, Hprefix, Hname. cbn [negb].
  unfold bind, uuid4, write_file, utcnow, insert_image, ret, advance.
  cbn [tick files images]. rewrite Hfs. cbn [tick files images].
  rewrite Hstore. cbn [fst snd images files].
  split; [reflexivity|]. split; [reflexivity|]. eexists. reflexivity.
Qed.

Lemma upload_image_store_failure_keeps_file_witness :
  fst (upload_image (sample_externals true true true false)
         (mkUploadFile (Some "image/png"%string) (Some "cat.png"%string) [x89])
         empty_world) = inl (Error "connection refused")
  /\ files (snd (upload_image (sample_externals true true true false)
                   (mkUploadFile (Some "image/png"%string)
                                 (Some "cat.png"%string) [x89])
                   empty_world)) !! "uploads/uuid-0.png"%string = Some [x89].
Proof.
  destruct (upload_image_store_failure_keeps_file
              (sample_externals true true true false)
              (mkUploadFile (Some "image/png"%string) (Some "cat.png"%string) [x89])
              "image/png" "cat.png" "connection refused" empty_world)
    as (Hfail & _ & _); try reflexivity.
  split; [exact Hfail|]. vm_compute. reflexivity.
Defined.

(** ** Symbolic execution that keeps what the outside answered *)

Section WpInformative.

Context (ext : Externals).
Implicit Types (w : World).

Lemma wp_insert_image (doc : ImageRecord) Q w :
  (forall msg, store_fault ext (tick w) = Some msg -> Q (inl (Error msg)) (advance w)) ->
  (store_fault ext (tick w) = None ->
   Q (inr tt)
     (mkWorld (age_verifications w) (images w ++ [doc]) (image_edits w)
              (files w) (net w) (S (tick w)))) ->
  wp (insert_image ext doc) Q w.
Proof.
  intros Hbad Hgood. unfold wp, insert_image.
  destruct (store_fault ext (tick w)) as [msg|]; [apply Hbad | apply Hgood];
    reflexivity.
Qed.

Lemma wp_replicate_run_eq (c : Client) (model : string) (input : RunInput) Q w :
  (forall e, provider_run ext (tick w) c model input = inl e ->
             Q (inl e) (log_call (ProviderRun model input false) w)) ->
  (forall out, provider_run ext (tick w) c model input = inr out ->
               Q (inr out) (log_call (ProviderRun model input true) w)) ->
  wp (replicate_run ext c model input) Q w.
Proof.
  intros Hbad Hgood. unfold wp, replicate_run.
  destruct (provider_run ext (tick w) c model input) as [e|out];
    [apply Hbad | apply Hgood]; reflexivity.
Qed.

Lemma wp_download_eq (url : string) Q w :
  (forall e, http_get ext (tick w) url = inl e ->
             Q (inl e) (log_call (HttpGet url false) w)) ->
  (forall body, http_get ext (tick w) url = inr body ->
                Q (inr (Base64.b64encode body)) (log_call (HttpGet url true) w)) ->
  wp (download_image_as_base64 ext url) Q w.
Proof.
  intros Hbad Hgood. unfold wp, download_image_as_base64.
  destruct (http_get ext (tick w) url) as [e|body];
    [apply Hbad | apply Hgood]; reflexivity.
Qed.

End WpInformative.

Ltac wp_step_eq :=
  lazymatch goal with
  | |- wp (replicate_run _ _ _ _) _ _ => apply wp_replicate_run_eq; intros ? ?
  | |- wp (download_image_as_base64 _ _) _ _ => apply wp_download_eq; intros ? ?
  | |- wp (insert_image _ _) _ _ => apply wp_insert_image; [intros ? ?|intros ?]
  end;
  cbv beta iota; unfold advance, log_call;
  cbn [age_verifications images image_edits files net tick].

Ltac wp_run := repeat first [wp_step_eq | wp_step | progress cbv zeta].

(** The stored file name of an accepted upload is the generated id, a
    dot, and an extension without dots: what follows the last dot of the
    client's file name, or [jpg] when that name has no dot. *)
Theorem upload_image_stored_name
        (ext : Externals) (file : UploadFile) (w : World) (resp : UploadResponse) :
  fst (upload_image ext file w) = inr resp ->
  exists name extension,
    filename file = Some name /\
    ur_filename resp = ur_id resp +:+ "." +:+ extension /\
    contains_dot extension = false /\
    (if contains_dot name
     then exists stem, name = stem +:+ "." +:+ extension
     else extension = "jpg"%string).
Proof.
  assert (Hwp : wp (upload_image ext file)
                   (fun r _ =>
                      match r with
                      | inl _ => True
                      | inr resp =>
                          exists name extension,
                            filename file = Some name /\
                            ur_filename resp = ur_id resp +:+ "." +:+ extension /\
                            contains_dot extension = false /\
                            (if contains_dot name
                             then exists stem, name = stem +:+ "." +:+ extension
                             else extension = "jpg"%string)
                      end) w).
  { unfold upload_image. wp_run; try exact I.
    match goal with H : filename file = Some ?n |- _ => rename n into name end.
    exists name,
      (if contains_dot name then last_segment name EmptyString else "jpg"%string).
    split; [reflexivity|]. split; [reflexivity|].
    pose proof (last_segment_spec name EmptyString) as Hspec.
    pose proof (last_segment_no_dot name EmptyString eq_refl) as Hnodot.
    destruct (contains_dot name); split; auto. }
  unfold wp in Hwp. intros Hresp. rewrite Hresp in Hwp. exact Hwp.
Qed.

Lemma upload_image_stored_name_witness :
  exists name extension,
    Some "holiday.photo.PNG"%string = Some name /\
    "uuid-0.PNG"%string = "uuid-0" +:+ "." +:+ extension /\
    contains_dot extension = false /\
    (if contains_dot name
     then exists stem, name = stem +:+ "." +:+ extension
     else extension = "jpg"%string).
Proof.
  apply (upload_image_stored_name
           (sample_externals true true true true)
           (mkUploadFile (Some "image/png"%string)
                         (Some "holiday.photo.PNG"%string) [x89])
           empty_world
           (mkUploadResponse "uuid-0" "uuid-0.PNG" "iQ==" 1)).
  vm_compute. reflexivity.
Defined.

(** An upload never calls the network and never touches the edit or
    age-verification collections; a failed upload adds no image record,
    and an accepted one adds exactly one. *)
Theorem upload_image_frame (ext : Externals) (file : UploadFile) (w : World) :
  let out := upload_image ext file w in
  net (snd out) = net w /\
  image_edits (snd out) = image_edits w /\
  age_verifications (snd out) = age_verifications w /\
  match fst out with
  | inl _ => images (snd out) = images w
  | inr resp =>
      exists doc, images (snd out) = images w ++ [doc] /\ ir_id doc = ur_id resp
  end.
Proof.
  cbv zeta.
  change (wp (upload_image ext file)
            (fun r w' =>
               net w' = net w /\
               image_edits w' = image_edits w /\
               age_verifications w' = age_verifications w /\
               match r with
               | inl _ => images w' = images w
               | inr resp =>
                   exists doc, images w' = images w ++ [doc] /\ ir_id doc = ur_id resp
               end) w).
  unfold upload_image. wp_run; cbn [net image_edits age_verifications images];
    repeat split; eauto.
Qed.

(** After an accepted upload, encoding the stored file by its path gives
    the very text the upload returned, without touching the world. *)
Theorem upload_then_encode_by_path
        (ext : Externals) (file : UploadFile) (ct name : string) (w : World) :
  content_type file = Some ct ->
  String.prefix "image/" ct = true ->
  filename file = Some name ->
  (forall t, fs_fault ext t = None) ->
  (forall t, store_fault ext t = None) ->
  exists resp,
    fst (upload_image ext file w) = inr resp /\
    image_to_base64_path (UPLOAD_DIR +:+ ur_filename resp)
                         (snd (upload_image ext file w))
    = (inr (ur_base64 resp), snd (upload_image ext file w)).
Proof.
  intros Hct Hprefix Hname Hfs Hstore.
  assert (Hrun : exists resp w',
             upload_image ext file w = (inr resp, w') /\
             files w' !! (UPLOAD_DIR +:+ ur_filename resp) = Some (content file) /\
             ur_base64 resp = Base64.b64encode (content file)).
  { unfold upload_image. rewrite Hct, Hprefix, Hname. cbn [negb].
    unfold bind, uuid4, write_file, utcnow, insert_image, ret, advance.
    cbn [tick files images]. rewrite Hfs. cbn [tick files images].
    rewrite Hstore. do 2 eexists. split; [reflexivity|].
    cbn [files ur_filename ur_base64]. rewrite lookup_insert_eq.
    split; reflexivity. }
  destruct Hrun as (resp & w' & Hrun & Hfile & Htext).
  rewrite Hrun. cbn [fst snd]. exists resp. split; [reflexivity|].
  unfold image_to_base64_path, bind, open_rb, ret. rewrite Hfile, Htext.
  reflexivity.
Qed.

Lemma upload_then_encode_by_path_witness :
  exists resp,
    fst (upload_image (sample_externals true true true true)
           (mkUploadFile (Some "image/png"%string) (Some "cat.png"%string) [x89])
           empty_world) = inr resp
    /\ image_to_base64_path (UPLOAD_DIR +:+ ur_filename resp)
         (snd (upload_image (sample_externals true true true true)
                 (mkUploadFile (Some "image/png"%string)
                               (Some "cat.png"%string) [x89])
                 empty_world))
       = (inr (ur_base64 resp),
          snd (upload_image (sample_externals true true true true)
                 (mkUploadFile (Some "image/png"%string)
                               (Some "cat.png"%string) [x89])
                 empty_world)).
Proof.
  apply (upload_then_encode_by_path
           (sample_externals true true true true)
           (mkUploadFile (Some "image/png"%string) (Some "cat.png"%string) [x89])
           "image/png" "cat.png" empty_world); reflexivity.
Defined.

(** ** What a successful edit did *)

(** Everything a successful edit request is known to have done to the
    world [w0] it started from. *)
Definition edit_detail (ext : Externals) (req : EditRequest) (w0 : World)
           (r : result ImageEditResponse) (w : World) : Prop :=
  match r with
  | inl _ => True
  | inr resp =>
      exists t_run client model input out url t_get body t_end stamp,
        provider_run ext t_run client model input = inr out /\
        result_url out = inr url /\
        http_get ext t_get url = inr body /\
        result_image_base64 resp = Base64.b64encode body /\
        operation_type resp = operation_name req /\
        processing_time resp = clock_at ext t_end - clock_at ext (tick w0) /\
        (tick w0 < t_end)%nat /\
        image_edits w
        = image_edits w0
            ++ [mkEditRecord (id resp) (operation_name req) (request_prompt req)
                             stamp (result_image_base64 resp)
                             (processing_time resp)] /\
        net w = net w0 ++ [ProviderRun model input true; HttpGet url true] /\
        files w ⊆ files w0
  end.

Ltac files_subseteq :=
  apply map_subseteq_spec; intros ? ?;
  rewrite ?lookup_delete, ?lookup_insert; repeat case_decide;
  first [ discriminate | exact (fun H => H) | congruence ].

Ltac close_edit_detail :=
  first
    [ exact I
    | unfold edit_detail;
      cbn [result_image_base64 operation_type processing_time id
           operation_name request_prompt image_edits net files];
      do 10 eexists;
      split; [eassumption|]; split; [eassumption|]; split; [eassumption|];
      split; [reflexivity|]; split; [reflexivity|]; split; [reflexivity|];
      split; [lia|]; split; [reflexivity|];
      split; [rewrite <- ?app_assoc; reflexivity|];
      files_subseteq ].

Lemma run_edit_detail (ext : Externals) (replicate_client : option Client)
      (req : EditRequest) (w : World) :
  wp (run_edit ext replicate_client req) (edit_detail ext req w) w.
Proof.
  destruct req; cbn [run_edit];
    unfold remove_object, add_object, text_guided_edit;
    wp_run; close_edit_detail.
Qed.

(** The record a successful edit stores is its response: same id, same
    operation type (the one of the endpoint called), same result text and
    processing time, together with the request's prompt and a timestamp;
    it is appended after the records already there. *)
Theorem edit_record_matches_response
        (ext : Externals) (replicate_client : option Client)
        (req : EditRequest) (w : World) (resp : ImageEditResponse) :
  fst (run_edit ext replicate_client req w) = inr resp ->
  operation_type resp = operation_name req /\
  exists stamp,
    image_edits (snd (run_edit ext replicate_client req w))
    = image_edits w
        ++ [mkEditRecord (id resp) (operation_type resp) (request_prompt req)
                         stamp (result_image_base64 resp) (processing_time resp)].
Proof.
  intros Hresp. pose proof (run_edit_detail ext replicate_client req w) as Hd.
  unfold wp in Hd. rewrite Hresp in Hd. cbn [edit_detail] in Hd.
  destruct Hd as (t_run & client & model & input & out & url & t_get & body
                  & t_end & stamp & _ & _ & _ & _ & Hop & _ & _ & Hedits & _).
  split; [exact Hop|]. exists stamp. rewrite Hop. exact Hedits.
Qed.

Lemma edit_record_matches_response_witness :
  exists stamp,
    image_edits
      (snd (run_edit (sample_externals true true true true)
                     (Some (mkClient (Some "r8_token"%string)))
                     (TextGuidedEdit "iVBORw==" "make it blue" None)
                     empty_world))
    = [mkEditRecord "uuid-6" "text_guided_edit" "make it blue" stamp "iVBORw==" 5].
Proof.
  destruct (edit_record_matches_response
              (sample_externals true true true true)
              (Some (mkClient (Some "r8_token"%string)))
              (TextGuidedEdit "iVBORw==" "make it blue" None)
              empty_world
              (mkImageEditResponse "uuid-6" "iVBORw==" "text_guided_edit" 5))
    as [_ Hstored]; [vm_compute; reflexivity|].
  exact Hstored.
Defined.

(** The result text of a successful edit decodes to exactly the bytes
    downloaded from the provider's URL: the output itself when the
    provider returned one URL, the first element when it returned a
    list. *)
Theorem edit_result_is_downloaded_image
        (ext : Externals) (replicate_client : option Client)
        (req : EditRequest) (w : World) (resp : ImageEditResponse) :
  fst (run_edit ext replicate_client req w) = inr resp ->
  exists t_run client model input out url t_get body,
    provider_run ext t_run client model input = inr out /\
    (out = OutUrl url \/ exists rest, out = OutList (url :: rest)) /\
    http_get ext t_get url = inr body /\
    Base64.b64decode (result_image_base64 resp) = inr body.
Proof.
  intros Hresp. pose proof (run_edit_detail ext replicate_client req w) as Hd.
  unfold wp in Hd. rewrite Hresp in Hd. cbn [edit_detail] in Hd.
  destruct Hd as (t_run & client & model & input & out & url & t_get & body
                  & t_end & stamp & Hrun & Hurl & Hget & Htext & _).
  exists t_run, client, model, input, out, url, t_get, body.
  split; [exact Hrun|]. split.
  - destruct out as [u|[|u rest]]; cbn in Hurl; try discriminate;
      injection Hurl as ->; eauto.
  - split; [exact Hget|]. rewrite Htext. apply decode_encode.
Qed.

Lemma edit_result_is_downloaded_image_witness :
  exists body,
    Base64.b64decode
      (result_image_base64
         (mkImageEditResponse "uuid-6" "iVBORw==" "text_guided_edit" 5))
    = inr body.
Proof.
  destruct (edit_result_is_downloaded_image
              (sample_externals true true true true)
              (Some (mkClient (Some "r8_token"%string)))
              (TextGuidedEdit "iVBORw==" "make it blue" None)
              empty_world
              (mkImageEditResponse "uuid-6" "iVBORw==" "text_guided_edit" 5))
    as (_ & _ & _ & _ & _ & _ & _ & body & _ & _ & _ & Hdecode);
    [vm_compute; reflexivity|].
  exists body. exact Hdecode.
Defined.

(** A successful edit leaves no temporary file behind: every file in the
    upload directory afterwards was there before, with the same
    content. *)
Theorem edit_success_leaves_no_temp_file
        (ext : Externals) (replicate_client : option Client)
        (req : EditRequest) (w : World) (resp : ImageEditResponse) :
  fst (run_edit ext replicate_client req w) = inr resp ->
  files (snd (run_edit ext replicate_client req w)) ⊆ files w.
Proof.
  intros Hresp. pose proof (run_edit_detail ext replicate_client req w) as Hd.
  unfold wp in Hd. rewrite Hresp in Hd. cbn [edit_detail] in Hd.
  destruct Hd as (t_run & client & model & input & out & url & t_get & body
                  & t_end & stamp & _ & _ & _ & _ & _ & _ & _ & _ & _ & Hfiles).
  exact Hfiles.
Qed.

Lemma edit_success_leaves_no_temp_file_witness :
  files (snd (run_edit (sample_externals true true true true)
                       (Some (mkClient (Some "r8_token"%string)))
                       (AddObject "iVBORw==" "a red kite" (Some "AAAA"%string))
                       empty_world))
  ⊆ files empty_world.
Proof.
  apply (edit_success_leaves_no_temp_file
           (sample_externals true true true true)
           (Some (mkClient (Some "r8_token"%string)))
           (AddObject "iVBORw==" "a red kite" (Some "AAAA"%string))
           empty_world
           (mkImageEditResponse "uuid-8" "iVBORw==" "add_object" 7)).
  vm_compute. reflexivity.
Defined.

(** With a clock that never runs backwards, the processing time reported
    by a successful edit is not negative. *)
Theorem edit_processing_time_nonnegative
        (ext : Externals) (replicate_client : option Client)
        (req : EditRequest) (w : World) (resp : ImageEditResponse) :
  (forall a b, (a <= b)%nat -> clock_at ext a <= clock_at ext b) ->
  fst (run_edit ext replicate_client req w) = inr resp ->
  0 <= processing_time resp.
Proof.
  intros Hclock Hresp.
  pose proof (run_edit_detail ext replicate_client req w) as Hd.
  unfold wp in Hd. rewrite Hresp in Hd. cbn [edit_detail] in Hd.
  destruct Hd as (t_run & client & model & input & out & url & t_get & body
                  & t_end & stamp & _ & _ & _ & _ & _ & Htime & Hlater & _).
  rewrite Htime. specialize (Hclock (tick w) t_end). lia.
Qed.

Lemma edit_processing_time_nonnegative_witness :
  0 <= processing_time
         (mkImageEditResponse "uuid-6" "iVBORw==" "text_guided_edit" 5).
Proof.
  apply (edit_processing_time_nonnegative
           (sample_externals true true true true)
           (Some (mkClient (Some "r8_token"%string)))
           (TextGuidedEdit "iVBORw==" "make it blue" None)
           empty_world).
  - intros a b Hab. cbn. lia.
  - vm_compute. reflexivity.
Defined.

(** ** Temporary files *)

Lemma temp_paths_distinct (u1 u2 : string) :
  temp_image_path u1 <> temp_mask_path u2.
Proof.
  intros Heq. apply (f_equal (String.get 13)) in Heq.
  cbv in Heq. discriminate.
Qed.

Ltac lookup_temp :=
  rewrite ?lookup_insert; repeat case_decide;
  first
    [ reflexivity
    | congruence
    | exfalso; eapply temp_paths_distinct;
      first [eassumption | symmetry; eassumption] ].

(** A request that called the provider and then failed, for whatever
    reason, leaves the temporary copy of its image in the upload
    directory: the failure path unlinks nothing. *)
Theorem failed_edit_leaves_temp_image
        (ext : Externals) (replicate_client : option Client)
        (req : EditRequest) (w : World) (e : exn) :
  fst (run_edit ext replicate_client req w) = inl e ->
  net (snd (run_edit ext replicate_client req w)) <> net w ->
  exists u data,
    Base64.b64decode (request_image req) = inr data /\
    files (snd (run_edit ext replicate_client req w)) !! temp_image_path u
    = Some data.
Proof.
  assert (Hwp : wp (run_edit ext replicate_client req)
                   (fun r w' =>
                      match r with
                      | inr _ => True
                      | inl _ =>
                          net w' <> net w ->
                          exists u data,
                            Base64.b64decode (request_image req) = inr data /\
                            files w' !! temp_image_path u = Some data
                      end) w).
  { destruct req; cbn [run_edit request_image];
      unfold remove_object, add_object, text_guided_edit;
      wp_run; try exact I; cbn [net files];
      try (intros Hnet; exfalso; apply Hnet; reflexivity);
      intros _;
      match goal with
      | |- context [ <[temp_image_path ?u := ?data]> _ ] => exists u, data
      end;
      (split; [reflexivity|]); lookup_temp. }
  unfold wp in Hwp. intros Hfail. rewrite Hfail in Hwp. exact Hwp.
Qed.

Lemma failed_edit_leaves_temp_image_witness :
  exists u data,
    Base64.b64decode "iVBORw==" = inr data /\
    files (snd (run_edit (sample_externals true false true true)
                         (Some (mkClient (Some "r8_token"%string)))
                         (RemoveObject "iVBORw==" "AAAA" "remove the lamp")
                         empty_world)) !! temp_image_path u
    = Some data.
Proof.
  eapply (failed_edit_leaves_temp_image
            (sample_externals true false true true)
            (Some (mkClient (Some "r8_token"%string)))
            (RemoveObject "iVBORw==" "AAAA" "remove the lamp")
            empty_world).
  - vm_compute. reflexivity.
  - vm_compute. discriminate.
Defined.

(** ** Payload checks of the inference endpoints *)

(** [remove_object] decodes both payloads before it writes anything: when
    the image is not valid base64, or the image is and the mask is not,
    the request fails with the message of that decoding failure under
    the handler's prefix, and the world is as before, one clock reading
    apart: no temporary file, no outbound call, no record. *)
Theorem remove_object_rejects_bad_payload
        (ext : Externals) (client : Client) (image mask prompt : string)
        (w : World) :
  (forall e,
      Base64.b64decode image = inl e ->
      remove_object ext (Some client) image mask prompt w
      = (inl (HTTPException 500
                ("Failed to remove object: " +:+ Base64.str_of_DecodeError e)),
         advance w))
  /\ (forall data e,
         Base64.b64decode image = inr data ->
         Base64.b64decode mask = inl e ->
         remove_object ext (Some client) image mask prompt w
         = (inl (HTTPException 500
                   ("Failed to remove object: "
                    +:+ Base64.str_of_DecodeError e)),
            advance w)).
Proof.
  split.
  - intros e Himage.
    unfold remove_object, try_except, bind, utcnow, lift_decode.
    rewrite Himage. reflexivity.
  - intros data e Himage Hmask.
    unfold remove_object, try_except, bind, utcnow, lift_decode.
    rewrite Himage, Hmask. reflexivity.
Qed.

Lemma remove_object_rejects_bad_payload_witness :
  remove_object (sample_externals true true true true)
                (Some (mkClient (Some "r8_token"%string)))
                "iVBORw==" "A" "remove the lamp" empty_world
  = (inl (HTTPException 500
            "Failed to remove object: Invalid base64-encoded string: number of data characters (1) cannot be 1 more than a multiple of 4"),
     advance empty_world).
Proof.
  apply (proj2 (remove_object_rejects_bad_payload
                  (sample_externals true true true true)
                  (mkClient (Some "r8_token"%string))
                  "iVBORw==" "A" "remove the lamp" empty_world)
               [x89; x50; x4e; x47] (Base64.InvalidLength 1)).
  - vm_compute. reflexivity.
  - vm_compute. reflexivity.
Defined.

(** [add_object] looks at the mask only after it has written the image:
    with a valid image and a mask that is not valid base64 the request
    fails without calling the provider, and the temporary image file
    stays in the upload directory. *)
Theorem add_object_bad_mask_leaves_image
        (ext : Externals) (client : Client) (image prompt mask : string)
        (w : World) (data : list byte) (e : Base64.DecodeError) :
  Base64.b64decode image = inr data ->
  mask <> EmptyString ->
  Base64.b64decode mask = inl e ->
  fs_fault ext (S (S (tick w))) = None ->
  let out := add_object ext (Some client) image prompt (Some mask) w in
  fst out
  = inl (HTTPException 500
           ("Failed to add object: " +:+ Base64.str_of_DecodeError e)) /\
  files (snd out)
  = <[temp_image_path (uuid_at ext (S (tick w))) := data]> (files w) /\
  net (snd out) = net w /\
  image_edits (snd out) = image_edits w.
Proof.
  intros Himage Hnonempty Hmask Hfs. cbv zeta.
  unfold add_object, try_except, bind, utcnow, uuid4, write_file, open_rb,
    lift_decode, advance, ret, raise.
  rewrite Himage. cbn [tick files]. rewrite Hfs. cbn [files tick].
  rewrite lookup_insert_eq.
  destruct mask as [|ch mask]; [contradiction|]. cbn [truthy].
  rewrite Hmask. cbn [fst snd files net image_edits str_exn].
  repeat split; reflexivity.
Qed.

Lemma add_object_bad_mask_leaves_image_witness :
  files (snd (add_object (sample_externals true true true true)
                         (Some (mkClient (Some "r8_token"%string)))
                         "iVBORw==" "a red kite" (Some "A"%string) empty_world))
  = <[temp_image_path "uuid-1" := [x89; x50; x4e; x47]]> ∅.
Proof.
  refine (proj1 (proj2 (add_object_bad_mask_leaves_image
                          (sample_externals true true true true)
                          (mkClient (Some "r8_token"%string))
                          "iVBORw==" "a red kite" "A" empty_world
                          [x89; x50; x4e; x47] (Base64.InvalidLength 1)
                          _ _ _ _))).
  - vm_compute. reflexivity.
  - discriminate.
  - vm_compute. reflexivity.
  - reflexivity.
Defined.

(** ** Which model [add_object] calls *)

Ltac split_calls :=
  repeat match goal with
         | H : _ \/ _ |- _ => destruct H
         | H : False |- _ => destruct H
         | H : In _ [] |- _ => destruct H
         | H : In _ (_ :: _) |- _ => cbn [In] in H
         | H : ProviderRun _ _ _ = ProviderRun _ _ _ |- _ =>
             injection H as <- <- <-
         | H : HttpGet _ _ = ProviderRun _ _ _ |- _ => discriminate H
         end.

(** [add_object] chooses the model by the mask field alone: with no mask,
    or an empty one, any provider call it makes is to the plain
    generation model and its input has no [mask] entry; with a non-empty
    mask any call is to the inpainting model and its input carries the
    mask file. *)
Theorem add_object_model_follows_mask
        (ext : Externals) (replicate_client : option Client)
        (image prompt : string) (mask : option string) (w : World) :
  exists calls,
    net (snd (add_object ext replicate_client image prompt mask w))
    = net w ++ calls /\
    forall model input ok,
      In (ProviderRun model input ok) calls ->
      match mask with
      | None | Some EmptyString =>
          model = "black-forest-labs/flux-dev"%string /\
          forall v, ~ In ("mask"%string, v) input
      | Some _ =>
          model = "zsxkib/flux-dev-inpainting"%string /\
          exists bytes, In ("mask"%string, VFile bytes) input
      end.
Proof.
  change (wp (add_object ext replicate_client image prompt mask)
            (fun _ w' =>
               exists calls,
                 net w' = net w ++ calls /\
                 forall model input ok,
                   In (ProviderRun model input ok) calls ->
                   match mask with
                   | None | Some EmptyString =>
                       model = "black-forest-labs/flux-dev"%string /\
                       forall v, ~ In ("mask"%string, v) input
                   | Some _ =>
                       model = "zsxkib/flux-dev-inpainting"%string /\
                       exists bytes, In ("mask"%string, VFile bytes) input
                   end) w).
  unfold add_object.
  destruct mask as [[|ch mask]|]; cbn [truthy]; wp_run; cbn [net];
    rewrite <- ?app_assoc; cbn [app];
    (first [ exists []; rewrite app_nil_r; split; [reflexivity|]
           | eexists; split; [reflexivity|] ]);
    intros model input ok Hin; split_calls;
    (split; [reflexivity|]);
    first [ intros v Hv; cbn [In app] in Hv; split_calls; discriminate
          | eexists; cbn [In app]; eauto 10 ].
Qed.

(** ** Provider output without a URL *)

(** When the provider answers every run with an empty list, no edit
    request succeeds, nothing is downloaded and nothing is stored: either
    the request fails before the run, or it made the single successful
    run and fails on [output[0]] with the index error under the
    handler's prefix. *)
Theorem empty_output_list_fails
        (ext : Externals) (replicate_client : option Client)
        (req : EditRequest) (w : World) :
  (forall t client model input,
      provider_run ext t client model input = inr (OutList [])) ->
  let out := run_edit ext replicate_client req w in
  image_edits (snd out) = image_edits w /\
  ((exists e, fst out = inl e /\ net (snd out) = net w)
   \/ (fst out
       = inl (HTTPException 500
                (failure_prefix req +:+ "list index out of range"))
       /\ exists model input,
            net (snd out) = net w ++ [ProviderRun model input true])).
Proof.
  intros Hempty. cbv zeta.
  change (wp (run_edit ext replicate_client req)
            (fun r w' =>
               image_edits w' = image_edits w /\
               ((exists e, r = inl e /\ net w' = net w)
                \/ (r = inl (HTTPException 500
                               (failure_prefix req +:+ "list index out of range"))
                    /\ exists model input,
                         net w' = net w ++ [ProviderRun model input true]))) w).
  destruct req; cbn [run_edit failure_prefix];
    unfold remove_object, add_object, text_guided_edit;
    wp_run; cbn [net image_edits str_exn];
    repeat match goal with
           | H : provider_run _ _ _ _ _ = _ |- _ =>
               rewrite Hempty in H; first [discriminate H | injection H as <-]
           | H : result_url (OutList []) = _ |- _ =>
               cbn in H; first [discriminate H | injection H as <-]
           end;
    (split; [reflexivity|]); eauto 6.
Qed.

Lemma empty_output_list_fails_witness :
  fst (run_edit
         (with_provider_run (sample_externals true true true true)
                            (fun _ _ _ _ => inr (OutList [])))
         (Some (mkClient (Some "r8_token"%string)))
         (TextGuidedEdit "iVBORw==" "make it blue" None) empty_world)
  = inl (HTTPException 500
           "Failed to perform text-guided edit: list index out of range").
Proof.
  destruct (empty_output_list_fails
              (with_provider_run (sample_externals true true true true)
                                 (fun _ _ _ _ => inr (OutList [])))
              (Some (mkClient (Some "r8_token"%string)))
              (TextGuidedEdit "iVBORw==" "make it blue" None) empty_world)
    as [_ [(e & _ & Hnet)|[Hfail _]]].
  - intros t client model input. reflexivity.
  - vm_compute in Hnet. discriminate Hnet.
  - exact Hfail.
Defined.

(** ** More on masks *)

(** [create_mask] is a pure endpoint: whatever its input, and whether it
    answers or fails, the collections, the upload directory and the
    network log are untouched; an image payload that is not valid base64
    is answered with the decoder's message under the endpoint's prefix. *)
Theorem create_mask_leaves_world
        (ext : Externals) (image_base64 mask_data : string) (w : World) :
  snd (create_mask ext image_base64 mask_data w) = w /\
  forall e,
    Base64.b64decode image_base64 = inl e ->
    fst (create_mask ext image_base64 mask_data w)
    = inl (HTTPException 500
             ("Failed to create mask: " +:+ Base64.str_of_DecodeError e)).
Proof.
  unfold create_mask, try_except, mask_raster, bind, lift, lift_decode, ret, raise.
  destruct (Base64.b64decode image_base64) as [e|data]; cbn [fst snd].
  - split; [reflexivity|]. intros e' [= <-]. reflexivity.
  - split; [|discriminate].
    destruct (Image_open ext data) as [e|sz]; [reflexivity|].
    destruct (json_loads ext mask_data) as [e|coords]; [reflexivity|].
    destruct (py_iter coords) as [e|items]; [reflexivity|].
    destruct (draw_rectangles ext (PIL.new_L sz 0) items) as [e|mask];
      [reflexivity|].
    destruct (png_save ext mask); reflexivity.
Qed.

Section MaskOrder.

Context (ext : Externals).
Import PIL PILSpec PILFacts.

Lemma draw_rectangles_inr_accepted (items : list json) (mask mask' : Image) :
  draw_rectangles ext mask items = inr mask' ->
  forallb (accepted ext) items = true.
Proof.
  revert mask. induction items as [|coords rest IH]; intros mask Hdraw;
    [reflexivity|].
  cbn [draw_rectangles] in Hdraw. cbn [forallb]. unfold accepted at 1.
  destruct (py_len coords) as [e|n]; [discriminate|].
  destruct (4 <=? n)%nat.
  - unfold rectangle in Hdraw.
    destruct (outline (pillow_ordered_only ext) (pillow_wide ext)
                (pillow_error_text ext) coords) as [e|pixels];
      [discriminate|].
    exact (IH _ Hdraw).
  - exact (IH _ Hdraw).
Qed.

Lemma forallb_perm {A : Type} (f : A -> bool) (l l' : list A) :
  Permutation l l' -> forallb f l = forallb f l'.
Proof.
  induction 1 as [|x l l' _ IH|x y l|l l' l'' _ IH1 _ IH2]; cbn;
    [reflexivity | rewrite IH; reflexivity | | congruence].
  destruct (f x), (f y); reflexivity.
Qed.

Lemma existsb_perm {A : Type} (f : A -> bool) (l l' : list A) :
  Permutation l l' -> existsb f l = existsb f l'.
Proof.
  induction 1 as [|x l l' _ IH|x y l|l l' l'' _ IH1 _ IH2]; cbn;
    [reflexivity | rewrite IH; reflexivity | | congruence].
  destruct (f x), (f y); reflexivity.
Qed.

(** Two well-formed images of the same size with the same pixels are the
    same image. *)
Lemma image_ext (m1 m2 : Image) :
  well_formed m1 -> well_formed m2 ->
  width m1 = width m2 -> height m1 = height m2 ->
  (forall x y, (x < width m1)%nat -> (y < height m1)%nat ->
               getpixel m1 x y = getpixel m2 x y) ->
  m1 = m2.
Proof.
  destruct m1 as [w1 h1 rows1], m2 as [w2 h2 rows2].
  unfold well_formed, getpixel. cbn [width height rows].
  intros [Hh1 Hw1] [Hh2 Hw2] <- <- Hpx. f_equal.
  rewrite List.Forall_forall in Hw1, Hw2.
  apply (nth_ext _ _ [] []); [congruence|].
  intros y Hy.
  assert (Hr1 : List.length (nth y rows1 []) = w1) by (apply Hw1, nth_In; lia).
  assert (Hr2 : List.length (nth y rows2 []) = w1) by (apply Hw2, nth_In; lia).
  apply (nth_ext _ _ 0 0); [congruence|].
  intros x Hx. apply Hpx; lia.
Qed.

Lemma draw_rectangles_perm (items items' : list json) (mask mask' : Image) :
  Permutation items items' ->
  well_formed mask ->
  draw_rectangles ext mask items = inr mask' ->
  draw_rectangles ext mask items' = inr mask'.
Proof.
  intros Hperm Hwf Hdraw.
  pose proof (draw_rectangles_inr_accepted _ _ _ Hdraw) as Hacc.
  rewrite (forallb_perm _ _ _ Hperm) in Hacc.
  destruct (draw_rectangles_accepted ext mask items' Hacc) as [mask'' Hdraw'].
  rewrite Hdraw'. f_equal.
  destruct (draw_rectangles_inr ext _ _ _ Hdraw Hwf) as (Hwf1 & Hw1 & Hh1 & Hpx1).
  destruct (draw_rectangles_inr ext _ _ _ Hdraw' Hwf) as (Hwf2 & Hw2 & Hh2 & Hpx2).
  apply image_ext; try assumption; try congruence.
  intros x y Hx Hy. rewrite Hw2 in Hx. rewrite Hh2 in Hy.
  rewrite (Hpx1 x y Hx Hy), (Hpx2 x y Hx Hy).
  rewrite (existsb_perm _ _ _ Hperm). reflexivity.
Qed.

End MaskOrder.

(** The mask does not depend on the order of the rectangles: when a list
    of entries yields a mask, every reordering of the list yields the
    same raster, and the endpoint gives the same response for both. *)
Theorem mask_independent_of_order
        (ext : Externals) (items items' : list json) :
  Permutation items items' ->
  (forall sz mask,
      draw_rectangles ext (PIL.new_L sz 0) items = inr mask ->
      draw_rectangles ext (PIL.new_L sz 0) items' = inr mask)
  /\ (forall image_base64 mask_data mask_data' w resp,
         json_loads ext mask_data = inr (JList items) ->
         json_loads ext mask_data' = inr (JList items') ->
         fst (create_mask ext image_base64 mask_data w) = inr resp ->
         create_mask ext image_base64 mask_data' w
         = create_mask ext image_base64 mask_data w).
Proof.
  intros Hperm.
  assert (Hraster : forall sz mask,
             draw_rectangles ext (PIL.new_L sz 0) items = inr mask ->
             draw_rectangles ext (PIL.new_L sz 0) items' = inr mask).
  { intros sz mask. apply draw_rectangles_perm; [exact Hperm|].
    apply PILFacts.new_L_well_formed. }
  split; [exact Hraster|].
  intros image_base64 mask_data mask_data' w resp Hjson Hjson'.
  unfold create_mask, try_except, mask_raster, bind, lift, lift_decode, ret, raise.
  destruct (Base64.b64decode image_base64) as [e|data]; [reflexivity|].
  destruct (Image_open ext data) as [e|sz]; [reflexivity|].
  rewrite Hjson, Hjson'. cbn [py_iter].
  destruct (draw_rectangles ext (PIL.new_L sz 0) items) as [e|mask] eqn:Hdraw.
  - cbn. discriminate.
  - rewrite (Hraster sz mask Hdraw). reflexivity.
Qed.

Lemma mask_independent_of_order_witness :
  draw_rectangles (sample_externals true true true true)
                  (PIL.new_L (4%nat, 4%nat) 0)
                  [JList [JInt 2; JInt 2; JInt 3; JInt 3];
                   JList [JInt 0; JInt 0; JInt 1; JInt 1]]
  = draw_rectangles (sample_externals true true true true)
                    (PIL.new_L (4%nat, 4%nat) 0)
                    [JList [JInt 0; JInt 0; JInt 1; JInt 1];
                     JList [JInt 2; JInt 2; JInt 3; JInt 3]].
Proof.
  destruct (draw_rectangles (sample_externals true true true true)
              (PIL.new_L (4%nat, 4%nat) 0)
              [JList [JInt 0; JInt 0; JInt 1; JInt 1];
               JList [JInt 2; JInt 2; JInt 3; JInt 3]]) as [e|mask] eqn:Hdraw;
    [vm_compute in Hdraw; discriminate Hdraw|].
  apply (proj1 (mask_independent_of_order
                  (sample_externals true true true true)
                  [JList [JInt 0; JInt 0; JInt 1; JInt 1];
                   JList [JInt 2; JInt 2; JInt 3; JInt 3]]
                  [JList [JInt 2; JInt 2; JInt 3; JInt 3];
                   JList [JInt 0; JInt 0; JInt 1; JInt 1]]
                  (perm_swap _ _ []))
               (4%nat, 4%nat) mask).
  exact Hdraw.
Defined.

(** ** Size of the encoded text *)

Lemma length_string_of_list_ascii (l : list ascii) :
  String.length (string_of_list_ascii l) = List.length l.
Proof. induction l as [|c l IH]; cbn; congruence. Qed.

(** The text [image_to_base64] returns has four characters for every
    three bytes of the image, the last group padded: its length is
    [4 * ceil(n / 3)] for [n] bytes. *)
Theorem image_to_base64_length (image_bytes : list byte) :
  String.length (image_to_base64 image_bytes)
  = (4 * ((List.length image_bytes + 2) / 3))%nat.
Proof.
  unfold image_to_base64, Base64.b64encode.
  rewrite length_string_of_list_ascii.
  induction image_bytes as [|a|a b|a b c l IH] using Base64Facts.list_ind3;
    try reflexivity.
  cbn [Base64.b2a_base64 List.length]. rewrite IH.
  replace (S (S (S (List.length l))) + 2)%nat
    with ((List.length l + 2) + 1 * 3)%nat by lia.
  rewrite Nat.div_add by lia. lia.
Qed.

(** ** The codec of the repository *)

(** C4: the text [image_to_base64] returns for a byte sequence decodes,
    with the [base64.b64decode] the handlers call on their payloads, to
    exactly that byte sequence.  The same holds for its path branch on
    the content of the file, and for [download_image_as_base64] on the
    body of the response. *)
Theorem image_to_base64_round_trip (data : list byte) :
  Base64.b64decode (image_to_base64 data) = inr data /\
  (forall path w,
      files w !! path = Some data ->
      exists text,
        image_to_base64_path path w = (inr text, w) /\
        Base64.b64decode text = inr data) /\
  (forall ext url w,
      http_get ext (tick w) url = inr data ->
      exists text,
        fst (download_image_as_base64 ext url w) = inr text /\
        Base64.b64decode text = inr data).
Proof.
  split; [apply decode_encode|]. split.
  - intros path w Hfile. exists (Base64.b64encode data).
    unfold image_to_base64_path, bind, open_rb, ret. rewrite Hfile.
    split; [reflexivity | apply decode_encode].
  - intros ext url w Hget. exists (Base64.b64encode data).
    unfold download_image_as_base64. rewrite Hget.
    split; [reflexivity | apply decode_encode].
Qed.

Lemma image_to_base64_round_trip_witness :
  Base64.b64decode (image_to_base64 [x89; x50; x4e; x47])
  = inr [x89; x50; x4e; x47]
  /\ exists text,
       fst (download_image_as_base64 (sample_externals true true true true)
              sample_url empty_world) = inr text
       /\ Base64.b64decode text = inr [x89; x50; x4e; x47].
Proof.
  destruct (image_to_base64_round_trip [x89; x50; x4e; x47])
    as (Hbytes & _ & Hdownload).
  split; [exact Hbytes|].
  apply (Hdownload (sample_externals true true true true) sample_url empty_world).
  reflexivity.
Defined.

(** ** Failures inside the guarded handlers *)

Ltac absurd_open H :=
  exfalso; cbn [files] in H; rewrite ?lookup_insert in H;
  repeat case_decide;
  first
    [ discriminate H
    | congruence
    | eapply temp_paths_distinct; first [eassumption | symmetry; eassumption] ].

Ltac in_request := unfold during; cbn [tick]; lia.

Ltac name_failure :=
  repeat match goal with
         | H : files _ !! _ = None |- _ => absurd_open H
         | H : result_url ?o = inl _ |- _ =>
             destruct o as [?|[|? ?]]; cbn [result_url] in H;
             first [discriminate H | injection H as <-]
         end;
  refine (ex_intro _ _ (conj _ eq_refl));
  first
    [ eapply image_not_base64; eassumption
    | eapply mask_not_base64; [first [reflexivity | eassumption] | eassumption]
    | eapply file_write_failed; [|eassumption]; in_request
    | eapply insert_failed; [|eassumption]; in_request
    | eapply provider_failed; [|eassumption]; in_request
    | eapply output_empty; [|eassumption]; in_request
    | eapply download_failed; [|eassumption]; in_request ].

Lemma run_edit_names_failure (ext : Externals) (client : Client)
      (req : EditRequest) (w : World) :
  wp (run_edit ext (Some client) req)
     (fun r _ =>
        match r with
        | inr _ => True
        | inl x =>
            exists e,
              edit_failure ext client req w e /\
              x = HTTPException 500 (failure_prefix req +:+ str_exn e)
        end) w.
Proof.
  destruct req; cbn [run_edit failure_prefix];
    unfold remove_object, add_object, text_guided_edit;
    wp_run; try exact I; name_failure.
Qed.

Lemma create_mask_names_failure (ext : Externals) (image_base64 mask_data : string)
      (w : World) :
  match fst (create_mask ext image_base64 mask_data w) with
  | inr _ => True
  | inl x =>
      exists e,
        mask_failure ext image_base64 mask_data e /\
        x = HTTPException 500 ("Failed to create mask: " +:+ str_exn e)
  end.
Proof.
  unfold create_mask, try_except, mask_raster, bind, lift, lift_decode, ret, raise.
  destruct (Base64.b64decode image_base64) as [e|data] eqn:Hdec; cbn [fst].
  { eexists. split; [eapply payload_not_base64; eassumption | reflexivity]. }
  destruct (Image_open ext data) as [e|sz] eqn:Hopen; cbn [fst].
  { eexists. split; [eapply image_not_identified; eassumption | reflexivity]. }
  destruct (json_loads ext mask_data) as [e|coords] eqn:Hjson; cbn [fst].
  { eexists. split; [eapply mask_data_not_json; eassumption | reflexivity]. }
  destruct (py_iter coords) as [e|items] eqn:Hiter; cbn [fst].
  { eexists. split; [eapply mask_data_not_iterable; eassumption | reflexivity]. }
  destruct (draw_rectangles ext (PIL.new_L sz 0) items) as [e|mask] eqn:Hdraw;
    cbn [fst].
  { eexists. split; [eapply entry_refused; eassumption | reflexivity]. }
  destruct (png_save ext mask) as [e|png] eqn:Hpng; cbn [fst]; [|exact I].
  eexists. split; [eapply mask_not_saved; eassumption | reflexivity].
Qed.


